(** * Seat reservation API (api.py): booking transaction, availability
      query and booking lookup.

    The request handlers of [api.py] talk to a PostgreSQL store through
    psycopg2.  They are embedded here as functions in a small state and
    exception monad over the two tables they touch ([trains] and
    [bookings]); each SQL statement is a function on the tables, and the
    [try] / [except] / [finally] structure of every handler is kept. *)

From Stdlib Require Import ZArith List String Bool Lia DecimalString.
Import ListNotations.
Local Open Scope Z_scope.
Local Open Scope string_scope.

(** ** Tables *)

(** A row of [trains]: the columns written by [add_train]. *)
Record Train := {
  t_id : Z;
  t_train_number : string;
  t_source : string;
  t_destination : string;
  t_total_seats : Z
}.

(** A row of [bookings]: the columns named by the INSERT of [book_seat]. *)
Record Booking := {
  b_id : Z;
  b_user_id : Z;
  b_train_id : Z;
  b_seat_number : Z;
  b_booking_date : Z
}.

Record Database := {
  trains : list Train;
  bookings : list Booking
}.

(** The store as a handler sees it.  [store] holds the committed tables;
    [txn] is the view of the open connection (committed rows plus its own
    uncommitted writes).  [faults] scripts the errors psycopg2 will raise:
    every call that reaches the store (connect, execute, commit, rollback)
    consumes one entry, [Some msg] making that call raise
    [psycopg2.Error(msg)]; an exhausted script means no more errors. *)
Record Server := {
  store : Database;
  txn : Database;
  bookings_id_seq : Z;
  now : Z;
  autocommit : bool;
  faults : list (option string)
}.

Definition set_store (d : Database) (s : Server) : Server :=
  {| store := d; txn := txn s; bookings_id_seq := bookings_id_seq s;
     now := now s; autocommit := autocommit s; faults := faults s |}.

Definition set_txn (d : Database) (s : Server) : Server :=
  {| store := store s; txn := d; bookings_id_seq := bookings_id_seq s;
     now := now s; autocommit := autocommit s; faults := faults s |}.

Definition set_bookings_id_seq (n : Z) (s : Server) : Server :=
  {| store := store s; txn := txn s; bookings_id_seq := n;
     now := now s; autocommit := autocommit s; faults := faults s |}.

Definition set_autocommit (b : bool) (s : Server) : Server :=
  {| store := store s; txn := txn s; bookings_id_seq := bookings_id_seq s;
     now := now s; autocommit := b; faults := faults s |}.

Definition set_faults (f : list (option string)) (s : Server) : Server :=
  {| store := store s; txn := txn s; bookings_id_seq := bookings_id_seq s;
     now := now s; autocommit := autocommit s; faults := f |}.

(** ** Request and response models *)

(** [class BookingCreate(BaseModel)] *)
Record BookingCreate := {
  train_id : Z;
  seat_number : Z
}.

(** [class RouteQuery(BaseModel)] *)
Record RouteQuery := {
  source : string;
  destination : string
}.

(** The token payload built by [create_token] and returned by
    [verify_token]. *)
Record TokenPayload := {
  user_id : Z;
  username : string;
  is_admin : bool
}.

(** A row of the availability query: [t.*] and [available_seats]. *)
Record AvailabilityRow := {
  row_train : Train;
  available_seats : Z
}.

(** A row of the booking lookup: [b.*, t.train_number, t.source,
    t.destination]. *)
Record BookingDetails := {
  d_booking : Booking;
  d_train_number : string;
  d_source : string;
  d_destination : string
}.

(** ** Exceptions and the handler monad *)

Inductive Exception : Type :=
| HTTPException (status_code : Z) (detail : string)
| Psycopg2Error (pgerror : string).

Inductive Outcome (A : Type) : Type :=
| Return (a : A)
| Raise (e : Exception).
Arguments Return {A} a.
Arguments Raise {A} e.

Definition Handler (A : Type) : Type := Server -> Server * Outcome A.

Definition ret {A} (a : A) : Handler A := fun s => (s, Return a).

Definition raise {A} (e : Exception) : Handler A := fun s => (s, Raise e).

Definition bind {A B} (m : Handler A) (k : A -> Handler B) : Handler B :=
  fun s =>
    match m s with
    | (s', Return a) => k a s'
    | (s', Raise e) => (s', Raise e)
    end.

(** [try: body / except Exception as e: handler e] *)
Definition try_except {A} (body : Handler A) (handler : Exception -> Handler A)
  : Handler A :=
  fun s =>
    match body s with
    | (s', Return a) => (s', Return a)
    | (s', Raise e) => handler e s'
    end.

(** [try: body / finally: final]: [final] runs on every exit path, and an
    exception it raises replaces the outcome of [body]. *)
Definition try_finally {A} (body : Handler A) (final : Handler unit)
  : Handler A :=
  fun s =>
    match body s with
    | (s1, r) =>
        match final s1 with
        | (s2, Return _) => (s2, r)
        | (s2, Raise e) => (s2, Raise e)
        end
    end.

Declare Scope handler_scope.
Delimit Scope handler_scope with handler.
Notation "x <- m ;; k" := (bind m (fun x => k))
  (at level 100, m at next level, right associativity) : handler_scope.
Notation "m ;; k" := (bind m (fun _ => k))
  (at level 100, right associativity) : handler_scope.
Local Open Scope handler_scope.

(** ** The psycopg2 connection *)

(** The next scripted store error, if any. *)
Definition next_fault (s : Server) : option string * Server :=
  match faults s with
  | [] => (None, s)
  | f :: rest => (f, set_faults rest s)
  end.

(** A call that reaches the store: raises the scripted error, or runs. *)
Definition store_call {A} (run : Handler A) : Handler A :=
  fun s =>
    match next_fault s with
    | (Some msg, s') => (s', Raise (Psycopg2Error msg))
    | (None, s') => run s'
    end.

(** [psycopg2.connect(DATABASE_URL, ...)]: a new session sees the committed
    tables and starts with autocommit off (psycopg2's default). *)
Definition psycopg2_connect : Handler unit :=
  store_call (fun s => (set_autocommit false (set_txn (store s) s), Return tt)).

(** [cursor.execute(query)] for a SELECT: the rows are computed on the
    session's view of the tables. *)
Definition execute_select {A} (query : Database -> A) : Handler A :=
  store_call (fun s => (s, Return (query (txn s)))).

(** [conn.commit()] *)
Definition conn_commit : Handler unit :=
  store_call (fun s => (set_store (txn s) s, Return tt)).

(** [conn.rollback()] *)
Definition conn_rollback : Handler unit :=
  store_call (fun s => (set_txn (store s) s, Return tt)).

(** [conn.autocommit = b] *)
Definition conn_set_autocommit (b : bool) : Handler unit :=
  fun s => (set_autocommit b s, Return tt).

(** [cursor.close()] *)
Definition cursor_close : Handler unit := ret tt.

(** [conn.close()]: the server discards what the session left uncommitted. *)
Definition conn_close : Handler unit :=
  fun s => (set_txn (store s) s, Return tt).

(** [cursor.fetchone()] on the rows of the last SELECT. *)
Definition fetchone {A} (rows : list A) : option A := hd_error rows.

(** ** SQL statements *)

(** The row of [SELECT id, total_seats FROM trains ...]. *)
Record TrainSeats := {
  r_id : Z;
  r_total_seats : Z
}.

(** [SELECT id, total_seats FROM trains WHERE id = %s FOR UPDATE] *)
Definition select_train_for_update (tid : Z) (d : Database) : list TrainSeats :=
  map (fun t => {| r_id := t_id t; r_total_seats := t_total_seats t |})
      (filter (fun t => Z.eqb (t_id t) tid) (trains d)).

(** The bookings of one train: [FROM bookings WHERE train_id = %s]. *)
Definition bookings_of (tid : Z) (d : Database) : list Booking :=
  filter (fun b => Z.eqb (b_train_id b) tid) (bookings d).

(** [SELECT COUNT( * ) as booked_seats FROM bookings WHERE train_id = %s].
    An aggregate without GROUP BY yields exactly one row, so the value that
    [cursor.fetchone()["booked_seats"]] reads is returned directly. *)
Definition count_booked_seats (tid : Z) (d : Database) : Z :=
  Z.of_nat (List.length (bookings_of tid d)).

(** Modelled from the spec: the CREATE TABLE statements are not part of
    api.py.  The identifier and timestamp of a new booking are
    server-assigned (the INSERT names neither the id nor a date value): the
    id is the next value of the table's sequence, which a rollback does not
    rewind, and the date is [NOW()].  No constraint of the schema looks at
    [seat_number].

    [INSERT INTO bookings (user_id, train_id, seat_number, booking_date)
     VALUES (%s, %s, %s, NOW()) RETURNING ...] followed by
    [cursor.fetchone()]. *)
Definition insert_booking (uid tid seat : Z) : Handler Booking :=
  store_call (fun s =>
    let row := {| b_id := bookings_id_seq s + 1; b_user_id := uid;
                  b_train_id := tid; b_seat_number := seat;
                  b_booking_date := now s |} in
    let d := {| trains := trains (txn s);
                bookings := bookings (txn s) ++ [row] |} in
    let s1 := set_bookings_id_seq (bookings_id_seq s + 1) (set_txn d s) in
    (if autocommit s then set_store d s1 else s1, Return row)).

(** The rows one train contributes to
    [FROM trains t LEFT JOIN bookings b ON t.id = b.train_id]: one per
    booking of the train, or a single row with NULL booking columns. *)
Definition joined (bs : list Booking) (t : Train)
  : list (Train * option Booking) :=
  match filter (fun b => Z.eqb (t_id t) (b_train_id b)) bs with
  | [] => [(t, None)]
  | m => map (fun b => (t, Some b)) m
  end.

Definition left_join_bookings (ts : list Train) (bs : list Booking)
  : list (Train * option Booking) :=
  flat_map (joined bs) ts.

(** [WHERE t.source = %s AND t.destination = %s] *)
Definition where_route (route : RouteQuery) (r : Train * option Booking) : bool :=
  String.eqb (t_source (fst r)) (source route)
  && String.eqb (t_destination (fst r)) (destination route).

(** [GROUP BY t.id]: one group per distinct key, holding the rows with that
    key. *)
Definition group_by_id (rows : list (Train * option Booking))
  : list (list (Train * option Booking)) :=
  map (fun k => filter (fun r => Z.eqb (t_id (fst r)) k) rows)
      (nodup Z.eq_dec (map (fun r => t_id (fst r)) rows)).

(** [COUNT(b.id)] counts the rows of a group whose [b.id] is not NULL. *)
Definition COUNT_b_id (g : list (Train * option Booking)) : option Z :=
  Some (Z.of_nat (List.length (filter (fun r => match snd r with
                                            | Some _ => true
                                            | None => false
                                            end) g))).

Definition COALESCE (v : option Z) (default : Z) : Z :=
  match v with
  | Some x => x
  | None => default
  end.

(** [SELECT t.*, (t.total_seats - COALESCE(COUNT(b.id), 0)) as
    available_seats] for one group; [t.*] is read off the group's rows. *)
Definition select_available (g : list (Train * option Booking))
  : list AvailabilityRow :=
  match g with
  | [] => []
  | (t, _) :: _ =>
      [{| row_train := t;
          available_seats := t_total_seats t - COALESCE (COUNT_b_id g) 0 |}]
  end.

(** The query of [get_seat_availability]. *)
Definition availability_query (route : RouteQuery) (d : Database)
  : list AvailabilityRow :=
  flat_map select_available
    (group_by_id
       (filter (where_route route)
          (left_join_bookings (trains d) (bookings d)))).

(** [FROM bookings b JOIN trains t ON b.train_id = t.id] *)
Definition join_trains (bs : list Booking) (ts : list Train)
  : list (Booking * Train) :=
  flat_map (fun b =>
              map (fun t => (b, t))
                  (filter (fun t => Z.eqb (b_train_id b) (t_id t)) ts)) bs.

(** The query of [get_booking_details]:
    [SELECT b.*, t.train_number, t.source, t.destination ...
     WHERE b.id = %s AND b.user_id = %s]. *)
Definition booking_details_query (booking_id uid : Z) (d : Database)
  : list BookingDetails :=
  map (fun r => {| d_booking := fst r;
                   d_train_number := t_train_number (snd r);
                   d_source := t_source (snd r);
                   d_destination := t_destination (snd r) |})
      (filter (fun r => Z.eqb (b_id (fst r)) booking_id
                        && Z.eqb (b_user_id (fst r)) uid)
              (join_trains (bookings d) (trains d))).

(** ** Request handlers *)

Section Handlers.

(** [str(e)] of an [HTTPException] is decided by the installed
    Starlette, which is not part of the repository: it is a parameter of
    the handlers. *)
Variable HTTPException_str : Z -> string -> string.

(** [str(e)] *)
Definition str (e : Exception) : string :=
  match e with
  | HTTPException status_code detail => HTTPException_str status_code detail
  | Psycopg2Error pgerror => pgerror
  end.

(** [def get_db_connection()] *)
Definition get_db_connection : Handler unit :=
  try_except psycopg2_connect
    (fun e => raise (HTTPException 500
                       ("Database connection failed: " ++ str e))).

(** [async def get_seat_availability(route)] *)
Definition get_seat_availability (route : RouteQuery)
  : Handler (list AvailabilityRow) :=
  get_db_connection ;;
  try_finally
    (rows <- execute_select (availability_query route) ;;
     ret rows)
    (cursor_close ;; conn_close).

(** [async def book_seat(booking, user)] *)
Definition book_seat (booking : BookingCreate) (user : TokenPayload)
  : Handler Booking :=
  get_db_connection ;;
  try_finally
    (try_except
       (conn_set_autocommit false ;;
        rows <- execute_select (select_train_for_update (train_id booking)) ;;
        match fetchone rows with
        | None => raise (HTTPException 404 "Train not found")
        | Some train =>
            booked_seats <-
              execute_select (count_booked_seats (train_id booking)) ;;
            if booked_seats >=? r_total_seats train
            then raise (HTTPException 400 "No seats available")
            else
              new_booking <- insert_booking (user_id user) (train_id booking)
                               (seat_number booking) ;;
              conn_commit ;;
              ret new_booking
        end)
       (fun e => conn_rollback ;; raise (HTTPException 400 (str e))))
    (conn_set_autocommit true ;; cursor_close ;; conn_close).

(** [async def get_booking_details(booking_id, user)] *)
Definition get_booking_details (booking_id : Z) (user : TokenPayload)
  : Handler BookingDetails :=
  get_db_connection ;;
  try_finally
    (rows <- execute_select (booking_details_query booking_id (user_id user)) ;;
     match fetchone rows with
     | None => raise (HTTPException 404 "Booking not found")
     | Some booking => ret booking
     end)
    (cursor_close ;; conn_close).

End Handlers.

(** [HTTPException.__str__] as current Starlette defines it
    ([f"{status_code}: {detail}"]), for the concrete runs below. *)
Definition starlette_str (status_code : Z) (detail : string) : string :=
  NilZero.string_of_int (Z.to_int status_code) ++ ": " ++ detail.

(** ** Properties of the tables *)

(** [trains.id] is the primary key (the availability query selects [t.*]
    under [GROUP BY t.id], which PostgreSQL accepts only for a key). *)
Definition trains_pk (d : Database) : Prop := NoDup (map t_id (trains d)).

(** Booking ids come from the sequence. *)
Definition bookings_serial (s : Server) : Prop :=
  forall b, In b (bookings (store s)) -> b_id b <= bookings_id_seq s.

(** No train has more committed bookings than seats. *)
Definition no_overbooking (d : Database) : Prop :=
  forall t, In t (trains d) -> count_booked_seats (t_id t) d <= t_total_seats t.

(** The train lies on the queried route. *)
Definition on_route (route : RouteQuery) (t : Train) : bool :=
  String.eqb (t_source t) (source route)
  && String.eqb (t_destination t) (destination route).

Definition route_of (t : Train) : RouteQuery :=
  {| source := t_source t; destination := t_destination t |}.

(** Seats minus committed bookings, for one train. *)
Definition availability_of (d : Database) (t : Train) : AvailabilityRow :=
  {| row_train := t;
     available_seats := t_total_seats t - count_booked_seats (t_id t) d |}.

(** The booking that a successful [book_seat] inserts and returns. *)
Definition booked (booking : BookingCreate) (user : TokenPayload) (s : Server)
  : Booking :=
  {| b_id := bookings_id_seq s + 1; b_user_id := user_id user;
     b_train_id := train_id booking; b_seat_number := seat_number booking;
     b_booking_date := now s |}.

(** The tables after such a booking is committed. *)
Definition with_booking (g : Booking) (d : Database) : Database :=
  {| trains := trains d; bookings := bookings d ++ [g] |}.

(** The booking joined with the summary of its train. *)
Definition details_of (g : Booking) (t : Train) : BookingDetails :=
  {| d_booking := g; d_train_number := t_train_number t;
     d_source := t_source t; d_destination := t_destination t |}.

(** No booking has this id. *)
Definition booking_missing (d : Database) (booking_id : Z) : Prop :=
  forall b, In b (bookings d) -> b_id b <> booking_id.

(** Bookings with this id exist, and none of them belongs to [uid]. *)
Definition booking_of_other (d : Database) (booking_id uid : Z) : Prop :=
  (exists b, In b (bookings d) /\ b_id b = booking_id) /\
  (forall b, In b (bookings d) -> b_id b = booking_id -> b_user_id b <> uid).

(** What [get_db_connection] raises when [psycopg2.connect] raised an
    error whose [str] is [msg]. *)
Definition connection_failed (msg : string) : Exception :=
  HTTPException 500 ("Database connection failed: " ++ msg).

(** Booking requests served one after the other. *)
Fixpoint serve_bookings (http_str : Z -> string -> string)
  (requests : list (BookingCreate * TokenPayload)) (s : Server) : Server :=
  match requests with
  | [] => s
  | (booking, user) :: rest =>
      serve_bookings http_str rest (fst (book_seat http_str booking user s))
  end.

(** ** Concrete tables for the scenarios *)

Definition T2 : Train :=
  {| t_id := 7; t_train_number := "T2"; t_source := "Pune";
     t_destination := "Delhi"; t_total_seats := 2 |}.

Definition alice : TokenPayload :=
  {| user_id := 1; username := "alice"; is_admin := false |}.

Definition bob : TokenPayload :=
  {| user_id := 2; username := "bob"; is_admin := false |}.

Definition server0 : Server :=
  {| store := {| trains := [T2]; bookings := [] |};
     txn := {| trains := [T2]; bookings := [] |};
     bookings_id_seq := 0; now := 1700000000; autocommit := false;
     faults := [] |}.

Definition seat5 : BookingCreate := {| train_id := 7; seat_number := 5 |}.

Definition T1 : Train :=
  {| t_id := 3; t_train_number := "T1"; t_source := "Pune";
     t_destination := "Delhi"; t_total_seats := 1 |}.

(** Two trains on one route; alice holds seat 5 of [T2]. *)
Definition server1 : Server :=
  {| store := {| trains := [T1; T2];
                 bookings := [{| b_id := 1; b_user_id := 1; b_train_id := 7;
                                 b_seat_number := 5;
                                 b_booking_date := 1699999000 |}] |};
     txn := {| trains := [T1; T2]; bookings := [] |};
     bookings_id_seq := 1; now := 1700000000; autocommit := true;
     faults := [] |}.

Definition seat6 : BookingCreate := {| train_id := 7; seat_number := 6 |}.

Definition train9999 : BookingCreate :=
  {| train_id := 9999; seat_number := 1 |}.

(** The store accepts the connection and the three statements, then fails
    the commit. *)
Definition server_commit_fails : Server :=
  set_faults [None; None; None; None; Some "could not commit"] server0.

(** ** The admin endpoint *)

(** What a dependency reads of the incoming [Request]:
    [request.headers.get(name)]. *)
Record Request := {
  headers_get : string -> option string
}.

(** [class Train(BaseModel)], the body of [POST /trains]. *)
Record TrainModel := {
  m_train_number : string;
  m_source : string;
  m_destination : string;
  m_total_seats : Z
}.

(** [ADMIN_API_KEY = ""], as the repository sets it. *)
Definition ADMIN_API_KEY : string := "".

(** [not api_key]: [None] and the empty string are falsy. *)
Definition not_truthy (v : option string) : bool :=
  match v with
  | None => true
  | Some x => String.eqb x ""
  end.

(** [api_key != key], for a header value that may be [None]. *)
Definition differs (v : option string) (key : string) : bool :=
  match v with
  | None => true
  | Some x => negb (String.eqb x key)
  end.

(** [try: body / except psycopg2.Error as e: handler e]: other exceptions
    pass through. *)
Definition try_except_psycopg2 {A} (body : Handler A)
  (handler : Exception -> Handler A) : Handler A :=
  fun s =>
    match body s with
    | (s', Raise (Psycopg2Error pgerror)) => handler (Psycopg2Error pgerror) s'
    | (s', r) => (s', r)
    end.

(** [INSERT INTO trains (train_number, source, destination, total_seats)
     VALUES (%s, %s, %s, %s) RETURNING ...] followed by
    [cursor.fetchone()].  The id of the new row is assigned by the store;
    [new_id] stands for the value it hands out. *)
Definition insert_train (new_id : Z) (train : TrainModel) : Handler Train :=
  store_call (fun s =>
    let row := {| t_id := new_id; t_train_number := m_train_number train;
                  t_source := m_source train;
                  t_destination := m_destination train;
                  t_total_seats := m_total_seats train |} in
    let d := {| trains := trains (txn s) ++ [row];
                bookings := bookings (txn s) |} in
    let s1 := set_txn d s in
    (if autocommit s then set_store d s1 else s1, Return row)).

Section Admin.

(** [str(e)] of an [HTTPException], as in the section above. *)
Variable HTTPException_str : Z -> string -> string.

(** The configured admin key (the module-level [ADMIN_API_KEY]). *)
Variable admin_api_key : string.

(** [def verify_admin_api_key(request)] *)
Definition verify_admin_api_key (request : Request) : Handler bool :=
  let api_key := headers_get request "X-API-Key" in
  if not_truthy api_key || differs api_key admin_api_key
  then raise (HTTPException 403 "Invalid API key")
  else ret true.

(** [async def add_train(train)] *)
Definition add_train (train : TrainModel) (new_id : Z) : Handler Train :=
  get_db_connection HTTPException_str ;;
  try_finally
    (try_except_psycopg2
       (new_train <- insert_train new_id train ;;
        conn_commit ;;
        ret new_train)
       (fun e => conn_rollback ;;
                 raise (HTTPException 400 (str HTTPException_str e))))
    (cursor_close ;; conn_close).

(** [@app.post("/trains", dependencies=[Depends(verify_admin_api_key)])]:
    the dependency runs first, and the handler only if it returned. *)
Definition post_trains (request : Request) (train : TrainModel) (new_id : Z)
  : Handler Train :=
  verify_admin_api_key request ;;
  add_train train new_id.

End Admin.

(** The row that a successful [add_train] inserts and returns. *)
Definition train_row (new_id : Z) (train : TrainModel) : Train :=
  {| t_id := new_id; t_train_number := m_train_number train;
     t_source := m_source train; t_destination := m_destination train;
     t_total_seats := m_total_seats train |}.

(** The tables after such a train is committed. *)
Definition with_train (t : Train) (d : Database) : Database :=
  {| trains := trains d ++ [t]; bookings := bookings d |}.

(** Every booking has a distinct id. *)
Definition bookings_unique (d : Database) : Prop :=
  NoDup (map b_id (bookings d)).

(** Every booking is for a train of the table. *)
Definition bookings_reference_trains (d : Database) : Prop :=
  forall b, In b (bookings d) ->
            exists t, In t (trains d) /\ t_id t = b_train_id b.

(** ** Accounts *)

(** A row of [users]: the columns written by [register_user]. *)
Record User := {
  u_id : Z;
  u_username : string;
  u_password : string;
  u_email : string;
  u_is_admin : bool
}.

(** [class UserCreate(BaseModel)] *)
Record UserCreate := {
  c_username : string;
  c_password : string;
  c_email : string;
  c_is_admin : bool
}.

(** [class UserLogin(BaseModel)] *)
Record UserLogin := {
  l_username : string;
  l_password : string
}.

(** The row of [RETURNING id, username, email, is_admin]. *)
Record NewUser := {
  n_id : Z;
  n_username : string;
  n_email : string;
  n_is_admin : bool
}.

(** The row of [SELECT id, username, is_admin FROM users ...]. *)
Record UserData := {
  ud_id : Z;
  ud_username : string;
  ud_is_admin : bool
}.

(** The answer of [login_user]: [{"token": token, "user": user_data}]. *)
Record LoginResponse := {
  r_token : string;
  r_user : UserData
}.

(** The store with its [users] table: [server] carries the booking tables,
    the session flags and the error script; [users] is the committed
    table, [users_txn] the session's view of it, [users_id_seq] the
    sequence behind [users.id], and [utcnow] the clock read by
    [datetime.utcnow()]. *)
Record Accounts := {
  server : Server;
  users : list User;
  users_txn : list User;
  users_id_seq : Z;
  utcnow : Z
}.

Definition set_server (s : Server) (a : Accounts) : Accounts :=
  {| server := s; users := users a; users_txn := users_txn a;
     users_id_seq := users_id_seq a; utcnow := utcnow a |}.

Definition set_users (us : list User) (a : Accounts) : Accounts :=
  {| server := server a; users := us; users_txn := users_txn a;
     users_id_seq := users_id_seq a; utcnow := utcnow a |}.

Definition set_users_txn (us : list User) (a : Accounts) : Accounts :=
  {| server := server a; users := users a; users_txn := us;
     users_id_seq := users_id_seq a; utcnow := utcnow a |}.

Definition set_users_id_seq (n : Z) (a : Accounts) : Accounts :=
  {| server := server a; users := users a; users_txn := users_txn a;
     users_id_seq := n; utcnow := utcnow a |}.

Definition AccountHandler (A : Type) : Type := Accounts -> Accounts * Outcome A.

Definition acc_ret {A} (x : A) : AccountHandler A := fun a => (a, Return x).

Definition acc_raise {A} (e : Exception) : AccountHandler A :=
  fun a => (a, Raise e).

Definition acc_bind {A B} (m : AccountHandler A) (k : A -> AccountHandler B)
  : AccountHandler B :=
  fun a =>
    match m a with
    | (a', Return x) => k x a'
    | (a', Raise e) => (a', Raise e)
    end.

(** [try: body / except psycopg2.Error as e: handler e] *)
Definition acc_try_except_psycopg2 {A} (body : AccountHandler A)
  (handler : Exception -> AccountHandler A) : AccountHandler A :=
  fun a =>
    match body a with
    | (a', Raise (Psycopg2Error pgerror)) => handler (Psycopg2Error pgerror) a'
    | (a', r) => (a', r)
    end.

(** [try: body / finally: final] *)
Definition acc_try_finally {A} (body : AccountHandler A)
  (final : AccountHandler unit) : AccountHandler A :=
  fun a =>
    match body a with
    | (a1, r) =>
        match final a1 with
        | (a2, Return _) => (a2, r)
        | (a2, Raise e) => (a2, Raise e)
        end
    end.

Declare Scope account_scope.
Delimit Scope account_scope with account.
Notation "x <- m ;; k" := (acc_bind m (fun x => k))
  (at level 100, m at next level, right associativity) : account_scope.
Notation "m ;; k" := (acc_bind m (fun _ => k))
  (at level 100, right associativity) : account_scope.

(** A call on the connection, seen from the store with [users]. *)
Definition on_server {A} (h : Handler A) : AccountHandler A :=
  fun a =>
    match h (server a) with
    | (s', r) => (set_server s' a, r)
    end.

(** [cursor.execute(query)] for a SELECT on [users]. *)
Definition acc_execute_select {A} (query : list User -> A) : AccountHandler A :=
  (on_server (store_call (ret tt)) ;;
   fun a => (a, Return (query (users_txn a))))%account.

(** [conn.commit()] *)
Definition acc_commit : AccountHandler unit :=
  (on_server conn_commit ;;
   fun a => (set_users (users_txn a) a, Return tt))%account.

(** [conn.rollback()] *)
Definition acc_rollback : AccountHandler unit :=
  (on_server conn_rollback ;;
   fun a => (set_users_txn (users a) a, Return tt))%account.

(** [cursor.close()] then [conn.close()] *)
Definition acc_close : AccountHandler unit :=
  (on_server (bind cursor_close (fun _ => conn_close)) ;;
   fun a => (set_users_txn (users a) a, Return tt))%account.

(** [INSERT INTO users (username, password, email, is_admin)
     VALUES (%s, %s, %s, %s) RETURNING id, username, email, is_admin]
    followed by [cursor.fetchone()]; the id comes from the table's
    sequence, as for bookings. *)
Definition insert_user (username password email : string) (is_admin : bool)
  : AccountHandler NewUser :=
  (on_server (store_call (ret tt)) ;;
   fun a =>
     let row := {| u_id := users_id_seq a + 1; u_username := username;
                   u_password := password; u_email := email;
                   u_is_admin := is_admin |} in
     let a1 := set_users_id_seq (users_id_seq a + 1)
                 (set_users_txn (users_txn a ++ [row]) a) in
     (if autocommit (server a) then set_users (users_txn a1) a1 else a1,
      Return {| n_id := users_id_seq a + 1; n_username := username;
                n_email := email; n_is_admin := is_admin |}))%account.

(** [SELECT id, username, is_admin FROM users
     WHERE username = %s AND password = %s] *)
Definition select_user (username password : string) (us : list User)
  : list UserData :=
  map (fun u => {| ud_id := u_id u; ud_username := u_username u;
                   ud_is_admin := u_is_admin u |})
      (filter (fun u => String.eqb (u_username u) username
                        && String.eqb (u_password u) password) us).

Section AccountHandlers.

(** [str(e)] of an [HTTPException], as above. *)
Variable HTTPException_str : Z -> string -> string.

(** [hashlib.sha256(data).hexdigest()] *)
Variable sha256_hexdigest : string -> string.

(** [jwt.encode(payload, SECRET_KEY, algorithm="HS256")], for a payload
    with the three claims of [TokenPayload] and the expiry ["exp"]. *)
Variable jwt_encode : TokenPayload -> Z -> string.

(** [def hash_password(password)] *)
Definition hash_password (password : string) : string :=
  sha256_hexdigest password.

(** [def create_token(user_id, username, is_admin)]; one day is 86400
    seconds. *)
Definition create_token (uid : Z) (name : string) (admin : bool)
  : AccountHandler string :=
  fun a =>
    (a, Return (jwt_encode {| user_id := uid; username := name;
                              is_admin := admin |}
                           (utcnow a + 86400))).

(** [get_db_connection()], for a session that also sees [users]. *)
Definition acc_get_db_connection : AccountHandler unit :=
  (on_server (get_db_connection HTTPException_str) ;;
   fun a => (set_users_txn (users a) a, Return tt))%account.

(** [async def register_user(user)] *)
Definition register_user (user : UserCreate) : AccountHandler NewUser :=
  (acc_get_db_connection ;;
   acc_try_finally
     (acc_try_except_psycopg2
        (let hashed_password := hash_password (c_password user) in
         new_user <- insert_user (c_username user) hashed_password
                       (c_email user) (c_is_admin user) ;;
         acc_commit ;;
         acc_ret new_user)
        (fun e => acc_rollback ;;
                  acc_raise (HTTPException 400 (str HTTPException_str e))))
     acc_close)%account.

(** [async def login_user(user)] *)
Definition login_user (user : UserLogin) : AccountHandler LoginResponse :=
  (acc_get_db_connection ;;
   acc_try_finally
     (let hashed_password := hash_password (l_password user) in
      rows <- acc_execute_select
                (select_user (l_username user) hashed_password) ;;
      match fetchone rows with
      | None => acc_raise (HTTPException 401 "Invalid credentials")
      | Some user_data =>
          token <- create_token (ud_id user_data) (ud_username user_data)
                     (ud_is_admin user_data) ;;
          acc_ret {| r_token := token; r_user := user_data |}
      end)
     acc_close)%account.

End AccountHandlers.


(** Stand-ins for the hash and the token encoder in the concrete runs. *)
Definition toy_hash (password : string) : string := "sha256:" ++ password.

Definition toy_jwt (payload : TokenPayload) (exp : Z) : string :=
  "jwt:" ++ username payload.

Definition accounts0 : Accounts :=
  {| server := server0;
     users := [{| u_id := 1; u_username := "alice";
                  u_password := toy_hash "wonderland";
                  u_email := "alice@example.org"; u_is_admin := false |}];
     users_txn := []; users_id_seq := 1; utcnow := 1700000000 |}.



Definition login_response_alice : LoginResponse :=
  {| r_token := "jwt:alice";
     r_user := {| ud_id := 1; ud_username := "alice";
                  ud_is_admin := false |} |}.

(** ** More concrete data *)

(** The booking that [server1] holds. *)
Definition booking1 : Booking :=
  {| b_id := 1; b_user_id := 1; b_train_id := 7; b_seat_number := 5;
     b_booking_date := 1699999000 |}.

(** Three requests for the two seats of [T2]. *)
Definition requests0 : list (BookingCreate * TokenPayload) :=
  [(seat5, alice); (seat6, bob); (seat5, bob)].

(** The connection opens, the first statement fails, the rollback works. *)
Definition server_select_fails : Server :=
  set_faults [None; Some "deadlock detected"; None] server0.


Definition express : TrainModel :=
  {| m_train_number := "T9"; m_source := "Agra"; m_destination := "Goa";
     m_total_seats := 40 |}.

Definition broken : TrainModel :=
  {| m_train_number := "T0"; m_source := "Agra"; m_destination := "Goa";
     m_total_seats := -3 |}.

(** A request without headers. *)
Definition no_headers : Request := {| headers_get := fun _ => None |}.

(** ** Lists *)

Lemma filter_all {A} (p : A -> bool) l :
  (forall x, In x l -> p x = true) -> filter p l = l.
Proof.
  induction l as [|a l IH]; intros H; cbn; [reflexivity|].
  rewrite (H a (or_introl eq_refl)). f_equal. apply IH.
  intros x Hx. apply H. now right.
Qed.

Lemma filter_none {A} (p : A -> bool) l :
  (forall x, In x l -> p x = false) -> filter p l = [].
Proof.
  induction l as [|a l IH]; intros H; cbn; [reflexivity|].
  rewrite (H a (or_introl eq_refl)). apply IH.
  intros x Hx. apply H. now right.
Qed.

Lemma NoDup_map_filter {A} (f : A -> Z) (p : A -> bool) l :
  NoDup (map f l) -> NoDup (map f (filter p l)).
Proof.
  induction l as [|a l IH]; cbn; intros H; [constructor|].
  inversion H as [|? ? Hn Hd]; subst.
  destruct (p a); cbn; [constructor|]; auto.
  intros Hin. apply Hn. apply in_map_iff in Hin.
  destruct Hin as (x & <- & Hx). apply filter_In in Hx. apply in_map. tauto.
Qed.

Lemma flat_map_singleton {A B} (g : A -> list B) (h : A -> B) l :
  (forall x, In x l -> g x = [h x]) -> flat_map g l = map h l.
Proof.
  induction l as [|a l IH]; intros H; cbn; [reflexivity|].
  rewrite (H a (or_introl eq_refl)), IH; [reflexivity|].
  intros x Hx. apply H. now right.
Qed.

Lemma flat_map_map {A B C} (g : B -> list C) (h : A -> B) l :
  flat_map g (map h l) = flat_map (fun x => g (h x)) l.
Proof. induction l as [|a l IH]; cbn; [reflexivity | now rewrite IH]. Qed.

(** A block of equal keys in front of a list without that key collapses to
    one key. *)
Lemma nodup_block k xs ys :
  xs <> [] -> (forall x, In x xs -> x = k) -> ~ In k ys ->
  nodup Z.eq_dec (xs ++ ys) = k :: nodup Z.eq_dec ys.
Proof.
  induction xs as [|x xs IH]; intros Hne Hall Hk; [congruence|].
  assert (x = k) as -> by (apply Hall; now left).
  cbn. destruct (in_dec Z.eq_dec k (xs ++ ys)) as [Hin | Hnin].
  - destruct xs as [|x' xs].
    + cbn in Hin. contradiction.
    + apply IH; [discriminate | | exact Hk].
      intros y Hy. apply Hall. now right.
  - destruct xs as [|x' xs]; [reflexivity|].
    exfalso. apply Hnin. left. apply Hall. right. now left.
Qed.

(** A key identifies its row. *)
Lemma pk_unique ts t t' :
  NoDup (map t_id ts) -> In t ts -> In t' ts -> t_id t = t_id t' -> t = t'.
Proof.
  induction ts as [|a ts IH]; intros Hnd Ht Ht' E; [destruct Ht|].
  cbn in Hnd. inversion Hnd as [|? ? Hn Hd]; subst.
  destruct Ht as [-> | Ht], Ht' as [-> | Ht'].
  - reflexivity.
  - exfalso. apply Hn. rewrite E. now apply in_map.
  - exfalso. apply Hn. rewrite <- E. now apply in_map.
  - now apply IH.
Qed.

Lemma pk_filter ts t :
  NoDup (map t_id ts) -> In t ts ->
  filter (fun t' => Z.eqb (t_id t') (t_id t)) ts = [t].
Proof.
  induction ts as [|a ts IH]; intros Hnd Ht; [destruct Ht|].
  cbn in *. inversion Hnd as [|? ? Hn Hd]; subst.
  destruct Ht as [-> | Ht].
  - rewrite Z.eqb_refl. f_equal. apply filter_none.
    intros x Hx. apply Z.eqb_neq. intros E. apply Hn. rewrite <- E.
    now apply in_map.
  - replace (Z.eqb (t_id a) (t_id t)) with false; [now apply IH|].
    symmetry. apply Z.eqb_neq. intros E. apply Hn. rewrite E.
    now apply in_map.
Qed.

(** ** The availability query *)

Section Availability.

Variable bs : list Booking.

Lemma joined_fst t r : In r (joined bs t) -> fst r = t.
Proof.
  unfold joined. destruct (filter _ bs) as [|b m].
  - intros [<- | []]. reflexivity.
  - intros H. apply in_map_iff in H. destruct H as (b' & <- & _).
    reflexivity.
Qed.

Lemma joined_nonempty t : joined bs t <> [].
Proof. unfold joined. destruct (filter _ bs); discriminate. Qed.

(** The WHERE clause looks at train columns only: it selects trains. *)
Lemma where_route_joined route ts :
  filter (where_route route) (flat_map (joined bs) ts)
  = flat_map (joined bs) (filter (on_route route) ts).
Proof.
  induction ts as [|t ts IH]; cbn; [reflexivity|].
  rewrite filter_app, IH.
  destruct (on_route route t) eqn:Ht; cbn.
  - f_equal. apply filter_all. intros r Hr.
    unfold where_route. rewrite (joined_fst _ _ Hr). exact Ht.
  - rewrite filter_none; [reflexivity|]. intros r Hr.
    unfold where_route. rewrite (joined_fst _ _ Hr). exact Ht.
Qed.

(** Under the primary key, the groups are the trains. *)
Lemma joined_keys ts :
  NoDup (map t_id ts) ->
  nodup Z.eq_dec (map (fun r => t_id (fst r)) (flat_map (joined bs) ts))
  = map t_id ts.
Proof.
  induction ts as [|t ts IH]; intros Hnd; [reflexivity|].
  cbn in *. inversion Hnd as [|? ? Hnotin Hnd']; subst.
  rewrite map_app, nodup_block with (k := t_id t).
  - f_equal. apply IH. exact Hnd'.
  - intros H. apply map_eq_nil in H. now apply joined_nonempty in H.
  - intros x Hx. apply in_map_iff in Hx. destruct Hx as (r & <- & Hr).
    now rewrite (joined_fst _ _ Hr).
  - intros Hin. apply Hnotin. apply in_map_iff in Hin.
    destruct Hin as (r & Hk & Hr). apply in_flat_map in Hr.
    destruct Hr as (t' & Ht' & Hr). rewrite (joined_fst _ _ Hr) in Hk.
    rewrite <- Hk. now apply in_map.
Qed.

Lemma joined_group ts t :
  NoDup (map t_id ts) -> In t ts ->
  filter (fun r => Z.eqb (t_id (fst r)) (t_id t)) (flat_map (joined bs) ts)
  = joined bs t.
Proof.
  induction ts as [|t0 ts IH]; intros Hnd Hin; [destruct Hin|].
  cbn in *. inversion Hnd as [|? ? Hnotin Hnd']; subst.
  rewrite filter_app. destruct Hin as [-> | Hin].
  - rewrite filter_all, filter_none; [apply app_nil_r | |].
    + intros r Hr. apply in_flat_map in Hr. destruct Hr as (t' & Ht' & Hr).
      rewrite (joined_fst _ _ Hr). apply Z.eqb_neq. intros E.
      apply Hnotin. rewrite <- E. now apply in_map.
    + intros r Hr. rewrite (joined_fst _ _ Hr). apply Z.eqb_refl.
  - rewrite filter_none, IH; [reflexivity | exact Hnd' | exact Hin |].
    intros r Hr. rewrite (joined_fst _ _ Hr). apply Z.eqb_neq. intros E.
    apply Hnotin. rewrite E. now apply in_map.
Qed.

(** [COUNT(b.id)] over the rows of one train is its number of bookings:
    the NULL row of a train without bookings is not counted. *)
Lemma COUNT_joined t :
  COUNT_b_id (joined bs t)
  = Some (Z.of_nat
            (List.length (filter (fun b => Z.eqb (b_train_id b) (t_id t)) bs))).
Proof.
  unfold COUNT_b_id, joined.
  rewrite (filter_ext (fun b => Z.eqb (b_train_id b) (t_id t))
                      (fun b => Z.eqb (t_id t) (b_train_id b)))
    by (intros b; apply Z.eqb_sym).
  destruct (filter _ bs) as [|b m]; [reflexivity|].
  do 2 f_equal. rewrite filter_all.
  - apply length_map.
  - intros r Hr. apply in_map_iff in Hr. destruct Hr as (b' & <- & _).
    reflexivity.
Qed.

Lemma select_available_joined t :
  select_available (joined bs t)
  = [{| row_train := t;
        available_seats :=
          t_total_seats t
          - Z.of_nat
              (List.length
                 (filter (fun b => Z.eqb (b_train_id b) (t_id t)) bs)) |}].
Proof.
  unfold select_available. rewrite COUNT_joined.
  destruct (joined bs t) as [|[t' ob] rest] eqn:E.
  - now apply joined_nonempty in E.
  - assert (fst (t', ob) = t) as Ht by (apply joined_fst; rewrite E; now left).
    cbn in Ht. subst t'. reflexivity.
Qed.

End Availability.

(** The query returns one row per train on the route, with its seats minus
    its bookings. *)
Lemma availability_query_rows route d :
  trains_pk d ->
  availability_query route d
  = map (availability_of d) (filter (on_route route) (trains d)).
Proof.
  intros Hpk. unfold availability_query, group_by_id, left_join_bookings.
  rewrite where_route_joined.
  assert (NoDup (map t_id (filter (on_route route) (trains d)))) as Hnd
      by (apply NoDup_map_filter; exact Hpk).
  rewrite joined_keys by exact Hnd.
  do 2 rewrite flat_map_map.
  apply flat_map_singleton. intros t Ht.
  rewrite joined_group by assumption.
  apply select_available_joined.
Qed.

Lemma availability_query_no_route route d :
  (forall t, In t (trains d) -> on_route route t = false) ->
  availability_query route d = [].
Proof.
  intros H. unfold availability_query, group_by_id, left_join_bookings.
  rewrite where_route_joined, (filter_none _ _ H). reflexivity.
Qed.

Lemma on_route_route_of t : on_route (route_of t) t = true.
Proof. unfold on_route, route_of. cbn. now rewrite !String.eqb_refl. Qed.

(** ** The statements of [book_seat] and [get_booking_details] *)

Lemma select_train_found d t :
  trains_pk d -> In t (trains d) ->
  fetchone (select_train_for_update (t_id t) d)
  = Some {| r_id := t_id t; r_total_seats := t_total_seats t |}.
Proof.
  intros Hpk Ht. unfold select_train_for_update.
  rewrite pk_filter by assumption. reflexivity.
Qed.

Lemma select_train_missing d tid :
  (forall t, In t (trains d) -> t_id t <> tid) ->
  fetchone (select_train_for_update tid d) = None.
Proof.
  intros H. unfold select_train_for_update. rewrite filter_none; [reflexivity|].
  intros t Ht. apply Z.eqb_neq. now apply H.
Qed.

(** The row that [fetchone] hands to [book_seat] is a train of the table. *)
Lemma select_train_row d tid row :
  fetchone (select_train_for_update tid d) = Some row ->
  exists t, In t (trains d) /\ t_id t = tid
            /\ r_total_seats row = t_total_seats t.
Proof.
  unfold select_train_for_update, fetchone.
  destruct (filter _ (trains d)) as [|t l] eqn:E; [discriminate|].
  cbn. intros [= <-]. exists t.
  assert (In t (filter (fun t0 => Z.eqb (t_id t0) tid) (trains d))) as Hin
      by (rewrite E; now left).
  apply filter_In in Hin. destruct Hin as [Hin Hid].
  apply Z.eqb_eq in Hid. auto.
Qed.

Lemma count_with_booking g d tid :
  count_booked_seats tid (with_booking g d)
  = count_booked_seats tid d + (if Z.eqb (b_train_id g) tid then 1 else 0).
Proof.
  unfold count_booked_seats, bookings_of, with_booking. cbn.
  rewrite filter_app, length_app. cbn.
  destruct (Z.eqb (b_train_id g) tid); cbn; lia.
Qed.

Lemma bookings_of_with_booking g d tid :
  bookings_of tid (with_booking g d)
  = (bookings_of tid d ++ (if Z.eqb (b_train_id g) tid then [g] else []))%list.
Proof.
  unfold bookings_of, with_booking. cbn. rewrite filter_app. cbn.
  now destruct (Z.eqb (b_train_id g) tid).
Qed.

Lemma join_trains_app bs1 bs2 ts :
  join_trains (bs1 ++ bs2) ts
  = (join_trains bs1 ts ++ join_trains bs2 ts)%list.
Proof. unfold join_trains. apply flat_map_app. Qed.

Lemma join_trains_fst bs ts r : In r (join_trains bs ts) -> In (fst r) bs.
Proof.
  unfold join_trains. intros H. apply in_flat_map in H.
  destruct H as (b & Hb & Hr). apply in_map_iff in Hr.
  destruct Hr as (t & <- & _). exact Hb.
Qed.

(** A booking that is missing, or that another user owns, is not selected. *)
Lemma booking_details_hidden d booking_id uid :
  (forall b, In b (bookings d) -> b_id b = booking_id -> b_user_id b <> uid) ->
  booking_details_query booking_id uid d = [].
Proof.
  intros H. unfold booking_details_query. rewrite filter_none; [reflexivity|].
  intros r Hr. apply join_trains_fst in Hr.
  destruct (Z.eqb (b_id (fst r)) booking_id) eqn:E; [|reflexivity].
  apply Z.eqb_eq in E. cbn. apply Z.eqb_neq. now apply H.
Qed.

(** A fresh booking of an existing train is selected, alone, for its
    owner. *)
Lemma booking_details_fresh d g t :
  trains_pk d -> In t (trains d) -> t_id t = b_train_id g ->
  (forall b, In b (bookings d) -> b_id b <> b_id g) ->
  booking_details_query (b_id g) (b_user_id g) (with_booking g d)
  = [details_of g t].
Proof.
  intros Hpk Ht Hid Hfresh. unfold booking_details_query, with_booking.
  cbn [bookings trains].
  rewrite join_trains_app, filter_app, map_app.
  rewrite filter_none.
  - unfold join_trains. cbn. rewrite app_nil_r.
    rewrite (filter_ext (fun t0 => Z.eqb (b_train_id g) (t_id t0))
                        (fun t0 => Z.eqb (t_id t0) (t_id t)))
      by (intros t0; rewrite Hid; apply Z.eqb_sym).
    rewrite pk_filter by assumption. cbn. now rewrite !Z.eqb_refl.
  - intros r Hr. apply join_trains_fst in Hr.
    replace (Z.eqb (b_id (fst r)) (b_id g)) with false; [reflexivity|].
    symmetry. apply Z.eqb_neq. now apply Hfresh.
Qed.

(** ** Running the handlers *)

Ltac run_handler :=
  unfold book_seat, get_seat_availability, get_booking_details,
    get_db_connection, psycopg2_connect, execute_select, insert_booking,
    conn_commit, conn_rollback, conn_set_autocommit, cursor_close, conn_close,
    store_call, next_fault, try_except, try_finally, bind, ret, raise.

Ltac norm_faults Hf := repeat first [progress cbn | rewrite Hf].

Ltac failed_run :=
  intros [= <- <-]; left; eexists; cbn; repeat split; (reflexivity || lia).

(** Every run of [book_seat], whatever the store raises on the way: either
    it raises and the committed tables are the old ones, or the train was
    found with a free seat and exactly the new booking was committed. *)
Lemma book_seat_outcome http_str booking user s s' r :
  book_seat http_str booking user s = (s', r) ->
  (exists e, r = Raise e /\ store s' = store s
             /\ bookings_id_seq s <= bookings_id_seq s') \/
  (exists train,
      fetchone (select_train_for_update (train_id booking) (store s))
      = Some train /\
      count_booked_seats (train_id booking) (store s) < r_total_seats train /\
      r = Return (booked booking user s) /\
      store s' = with_booking (booked booking user s) (store s) /\
      bookings_id_seq s' = bookings_id_seq s + 1 /\
      now s' = now s /\
      faults s' = skipn 5 (faults s)).
Proof.
  run_handler.
  destruct (faults s)
    as [|[m1|] [|[m2|] [|[m3|] [|[m4|] [|[m5|] [|[m6|] fs]]]]]] eqn:Hf;
    norm_faults Hf.
  all: try failed_run.
  all: destruct (fetchone _) as [train|] eqn:Hrow; norm_faults Hf.
  all: try failed_run.
  all: destruct (_ >=? _) eqn:Hge; norm_faults Hf.
  all: try failed_run.
  all: intros [= <- <-]; right; exists train; cbn; rewrite ?Hf;
    repeat split; try reflexivity; try assumption.
  all: rewrite Z.geb_leb in Hge; apply Z.leb_gt in Hge; exact Hge.
Qed.

(** The run of [book_seat] when the store raises nothing. *)
Lemma book_seat_run http_str booking user s :
  faults s = [] ->
  exists s',
    faults s' = [] /\ now s' = now s /\
    match fetchone (select_train_for_update (train_id booking) (store s)) with
    | None =>
        book_seat http_str booking user s
        = (s', Raise (HTTPException 400
                        (str http_str (HTTPException 404 "Train not found"))))
        /\ store s' = store s /\ bookings_id_seq s' = bookings_id_seq s
    | Some train =>
        if count_booked_seats (train_id booking) (store s) >=? r_total_seats train
        then
          book_seat http_str booking user s
          = (s', Raise (HTTPException 400
                          (str http_str
                             (HTTPException 400 "No seats available"))))
          /\ store s' = store s /\ bookings_id_seq s' = bookings_id_seq s
        else
          book_seat http_str booking user s
          = (s', Return (booked booking user s))
          /\ store s' = with_booking (booked booking user s) (store s)
          /\ bookings_id_seq s' = bookings_id_seq s + 1
    end.
Proof.
  intros Hf. run_handler. norm_faults Hf.
  destruct (fetchone _) as [train|]; norm_faults Hf.
  - destruct (_ >=? _); norm_faults Hf;
      eexists; (split; [|split; [|split; [reflexivity|]]]); cbn; auto.
  - eexists; (split; [|split; [|split; [reflexivity|]]]); cbn; auto.
Qed.

Lemma get_seat_availability_run http_str route s :
  faults s = [] ->
  exists s',
    get_seat_availability http_str route s
    = (s', Return (availability_query route (store s)))
    /\ store s' = store s /\ faults s' = [].
Proof.
  intros Hf. run_handler. norm_faults Hf.
  eexists; split; [reflexivity|]. cbn. auto.
Qed.

Lemma get_booking_details_run http_str booking_id user s :
  faults s = [] ->
  exists s',
    get_booking_details http_str booking_id user s
    = (s', match fetchone (booking_details_query booking_id (user_id user)
                             (store s)) with
           | None => Raise (HTTPException 404 "Booking not found")
           | Some booking => Return booking
           end)
    /\ store s' = store s /\ faults s' = [].
Proof.
  intros Hf. run_handler. norm_faults Hf.
  destruct (fetchone _); norm_faults Hf;
    (eexists; split; [reflexivity|]); cbn; auto.
Qed.

(** ** Invariants of the tables under [book_seat] *)

Lemma trains_pk_with_booking g d : trains_pk d -> trains_pk (with_booking g d).
Proof. exact (fun H => H). Qed.

(** A successful run found a train of the table with a free seat. *)
Lemma book_seat_commits http_str booking user s s' g :
  book_seat http_str booking user s = (s', Return g) ->
  exists t,
    In t (trains (store s)) /\ t_id t = train_id booking /\
    count_booked_seats (t_id t) (store s) < t_total_seats t /\
    g = booked booking user s /\
    store s' = with_booking g (store s) /\
    bookings_id_seq s' = bookings_id_seq s + 1 /\
    faults s' = skipn 5 (faults s).
Proof.
  intros Hrun.
  destruct (book_seat_outcome _ _ _ _ _ _ Hrun)
    as [(e & [=] & _) | (row & Hrow & Hlt & [= ->] & Hst & Hseq & _ & Hf)].
  apply select_train_row in Hrow. destruct Hrow as (t & Ht & Hid & Htot).
  exists t. rewrite Hid, <- Htot. auto 8.
Qed.

Lemma book_seat_keeps_tables http_str booking user s s' r :
  trains_pk (store s) -> no_overbooking (store s) ->
  book_seat http_str booking user s = (s', r) ->
  trains_pk (store s') /\ no_overbooking (store s').
Proof.
  intros Hpk Hinv Hrun. destruct r as [g | e].
  - destruct (book_seat_commits _ _ _ _ _ _ Hrun)
      as (t0 & Ht0 & Hid0 & Hlt & Hg & Hst & _).
    rewrite Hst. split; [exact Hpk|].
    intros t Ht. cbn in Ht. rewrite count_with_booking.
    replace (b_train_id g) with (t_id t0) by (rewrite Hg, Hid0; reflexivity).
    destruct (Z.eqb (t_id t0) (t_id t)) eqn:E.
    + apply Z.eqb_eq in E.
      assert (t0 = t) as <- by (apply (pk_unique _ _ _ Hpk); assumption).
      lia.
    + specialize (Hinv t Ht). lia.
  - destruct (book_seat_outcome _ _ _ _ _ _ Hrun)
      as [(e' & _ & Hst & _) | (row & _ & _ & [=] & _)].
    rewrite Hst. auto.
Qed.

Lemma book_seat_keeps_serial http_str booking user s s' r :
  bookings_serial s ->
  book_seat http_str booking user s = (s', r) ->
  bookings_serial s'.
Proof.
  intros Hser Hrun b.
  destruct (book_seat_outcome _ _ _ _ _ _ Hrun)
    as [(e & _ & Hst & Hseq) | (row & _ & _ & _ & Hst & Hseq & _)];
    rewrite Hst.
  - intros Hb. specialize (Hser b Hb). lia.
  - cbn. intros Hb. apply in_app_or in Hb. destruct Hb as [Hb | [<- | []]].
    + specialize (Hser b Hb). lia.
    + cbn. lia.
Qed.

(** The three ways a run without store errors ends. *)
Lemma book_seat_free http_str booking user s t :
  faults s = [] -> trains_pk (store s) -> In t (trains (store s)) ->
  t_id t = train_id booking ->
  count_booked_seats (t_id t) (store s) < t_total_seats t ->
  exists s',
    book_seat http_str booking user s = (s', Return (booked booking user s))
    /\ store s' = with_booking (booked booking user s) (store s)
    /\ bookings_id_seq s' = bookings_id_seq s + 1
    /\ faults s' = [].
Proof.
  intros Hf Hpk Ht Hid Hlt.
  destruct (book_seat_run http_str booking user s Hf) as (s' & Hf' & _ & H).
  rewrite <- Hid, (select_train_found _ _ Hpk Ht) in H. cbn [r_total_seats] in H.
  replace (_ >=? _) with false in H
    by (symmetry; rewrite Z.geb_leb; apply Z.leb_gt; exact Hlt).
  exists s'. tauto.
Qed.

Lemma book_seat_full http_str booking user s t :
  faults s = [] -> trains_pk (store s) -> In t (trains (store s)) ->
  t_id t = train_id booking ->
  t_total_seats t <= count_booked_seats (t_id t) (store s) ->
  exists s',
    book_seat http_str booking user s
    = (s', Raise (HTTPException 400
                    (str http_str (HTTPException 400 "No seats available"))))
    /\ store s' = store s /\ faults s' = [].
Proof.
  intros Hf Hpk Ht Hid Hle.
  destruct (book_seat_run http_str booking user s Hf) as (s' & Hf' & _ & H).
  rewrite <- Hid, (select_train_found _ _ Hpk Ht) in H. cbn [r_total_seats] in H.
  replace (_ >=? _) with true in H
    by (symmetry; rewrite Z.geb_leb; apply Z.leb_le; exact Hle).
  exists s'. tauto.
Qed.

Lemma book_seat_missing http_str booking user s :
  faults s = [] ->
  (forall t, In t (trains (store s)) -> t_id t <> train_id booking) ->
  exists s',
    book_seat http_str booking user s
    = (s', Raise (HTTPException 400
                    (str http_str (HTTPException 404 "Train not found"))))
    /\ store s' = store s /\ faults s' = [].
Proof.
  intros Hf Hnone.
  destruct (book_seat_run http_str booking user s Hf) as (s' & Hf' & _ & H).
  rewrite (select_train_missing _ _ Hnone) in H.
  exists s'. tauto.
Qed.

(** X7. The tables stay well-formed and within capacity at every point
    of any sequence of booking requests, whatever errors the store throws
    in. *)
Lemma serve_bookings_keeps_tables http_str requests s :
  trains_pk (store s) -> no_overbooking (store s) ->
  trains_pk (store (serve_bookings http_str requests s)) /\
  no_overbooking (store (serve_bookings http_str requests s)).
Proof.
  revert s. induction requests as [|[booking user] rest IH]; intros s Hpk Hinv.
  - cbn. auto.
  - cbn. destruct (book_seat http_str booking user s) as [s' r] eqn:Hrun.
    destruct (book_seat_keeps_tables _ _ _ _ _ _ Hpk Hinv Hrun).
    now apply IH.
Qed.

(** ** No overbooking *)

(** C1. No overbooking: if no train of the committed tables has more
    bookings than seats, the same holds after any run of [book_seat],
    whatever it returns or raises; and a run that commits a booking started
    from tables where the bookings of that train were strictly fewer than
    its seats, and adds exactly that one booking. *)
Theorem book_seat_no_overbooking http_str booking user s s' r :
  trains_pk (store s) -> no_overbooking (store s) ->
  book_seat http_str booking user s = (s', r) ->
  no_overbooking (store s') /\
  (forall g, r = Return g ->
     exists t, In t (trains (store s)) /\ t_id t = train_id booking /\
               count_booked_seats (t_id t) (store s) < t_total_seats t /\
               bookings (store s') = (bookings (store s) ++ [g])%list).
Proof.
  intros Hpk Hinv Hrun. split.
  - exact (proj2 (book_seat_keeps_tables _ _ _ _ _ _ Hpk Hinv Hrun)).
  - intros g ->.
    destruct (book_seat_commits _ _ _ _ _ _ Hrun)
      as (t & Ht & Hid & Hlt & _ & Hst & _).
    exists t. rewrite Hst. auto.
Qed.

Lemma trains_pk_server0 : trains_pk (store server0).
Proof. repeat constructor. cbn. tauto. Qed.

Lemma no_overbooking_server0 : no_overbooking (store server0).
Proof. intros t [<- | []]. cbn. lia. Qed.

Lemma book_seat_no_overbooking_witness :
  no_overbooking (store (fst (book_seat starlette_str seat5 alice server0))) /\
  (forall g, snd (book_seat starlette_str seat5 alice server0) = Return g ->
     exists t, In t (trains (store server0)) /\ t_id t = train_id seat5 /\
               count_booked_seats (t_id t) (store server0) < t_total_seats t /\
               bookings (store (fst (book_seat starlette_str seat5 alice server0)))
               = (bookings (store server0) ++ [g])%list).
Proof.
  apply (book_seat_no_overbooking starlette_str seat5 alice server0).
  - exact trains_pk_server0.
  - exact no_overbooking_server0.
  - reflexivity.
Defined.

(** ** Availability *)

(** C2. Availability computation: on committed tables with [trains.id] as
    key, the availability query for a route returns, for every existing
    train on that route, a row whose [available_seats] is the train's
    [total_seats] minus the number of its committed bookings; every row
    returned is computed that way, and a train without bookings shows all
    its seats. *)
Theorem get_seat_availability_counts http_str route s t :
  faults s = [] -> trains_pk (store s) ->
  In t (trains (store s)) -> on_route route t = true ->
  exists s' rows,
    get_seat_availability http_str route s = (s', Return rows) /\
    In {| row_train := t;
          available_seats :=
            t_total_seats t
            - Z.of_nat (List.length (bookings_of (t_id t) (store s))) |} rows /\
    (forall row, In row rows ->
       In (row_train row) (trains (store s)) /\
       available_seats row
       = t_total_seats (row_train row)
         - Z.of_nat (List.length
                       (bookings_of (t_id (row_train row)) (store s)))) /\
    (bookings_of (t_id t) (store s) = [] ->
     In {| row_train := t; available_seats := t_total_seats t |} rows).
Proof.
  intros Hf Hpk Ht Hroute.
  destruct (get_seat_availability_run http_str route s Hf) as (s' & Hrun & _).
  rewrite (availability_query_rows _ _ Hpk) in Hrun.
  assert (In (availability_of (store s) t)
             (map (availability_of (store s))
                  (filter (on_route route) (trains (store s))))) as Hrow
      by (apply in_map, filter_In; auto).
  exists s', (map (availability_of (store s))
                  (filter (on_route route) (trains (store s)))).
  split; [exact Hrun|]. split; [exact Hrow|]. split.
  - intros row Hin. apply in_map_iff in Hin. destruct Hin as (t' & <- & Ht').
    apply filter_In in Ht'. split; [tauto | reflexivity].
  - intros Hnone. unfold availability_of, count_booked_seats in Hrow.
    rewrite Hnone in Hrow. cbn in Hrow. now rewrite Z.sub_0_r in Hrow.
Qed.

Lemma get_seat_availability_counts_witness :
  exists s' rows,
    get_seat_availability starlette_str (route_of T2) server1 = (s', Return rows) /\
    In {| row_train := T2;
          available_seats :=
            t_total_seats T2
            - Z.of_nat (List.length (bookings_of (t_id T2) (store server1))) |}
       rows /\
    (forall row, In row rows ->
       In (row_train row) (trains (store server1)) /\
       available_seats row
       = t_total_seats (row_train row)
         - Z.of_nat (List.length
                       (bookings_of (t_id (row_train row)) (store server1)))) /\
    (bookings_of (t_id T2) (store server1) = [] ->
     In {| row_train := T2; available_seats := t_total_seats T2 |} rows).
Proof.
  apply (get_seat_availability_counts starlette_str (route_of T2) server1 T2).
  - reflexivity.
  - repeat constructor; cbn; intuition discriminate.
  - cbn. tauto.
  - reflexivity.
Defined.

(** ** Filling a train *)

(** C3. Sequential fill-up: on a train with two seats and no bookings,
    three [book_seat] calls in a row (no store errors) end as follows: the
    first two return bookings with distinct ids, the third is rejected by
    the capacity check (status 400, raised from "No seats available"), and
    the train is left with exactly the two bookings. *)
Theorem three_bookings_on_two_seats http_str s t b1 b2 b3 u1 u2 u3 :
  faults s = [] -> trains_pk (store s) -> In t (trains (store s)) ->
  t_total_seats t = 2 -> bookings_of (t_id t) (store s) = [] ->
  train_id b1 = t_id t -> train_id b2 = t_id t -> train_id b3 = t_id t ->
  exists s1 s2 s3 g1 g2,
    book_seat http_str b1 u1 s = (s1, Return g1) /\
    book_seat http_str b2 u2 s1 = (s2, Return g2) /\
    book_seat http_str b3 u3 s2
    = (s3, Raise (HTTPException 400
                    (str http_str (HTTPException 400 "No seats available")))) /\
    b_id g1 <> b_id g2 /\
    bookings_of (t_id t) (store s3) = [g1; g2].
Proof.
  intros Hf Hpk Ht Hcap Hnone E1 E2 E3.
  assert (count_booked_seats (t_id t) (store s) = 0) as Hc0
      by (unfold count_booked_seats; now rewrite Hnone).
  destruct (book_seat_free http_str b1 u1 s t Hf Hpk Ht (eq_sym E1))
    as (s1 & R1 & S1 & Q1 & F1); [lia|].
  assert (count_booked_seats (t_id t) (store s1) = 1) as Hc1.
  { rewrite S1, count_with_booking, Hc0. cbn [booked b_train_id].
    now rewrite E1, Z.eqb_refl. }
  assert (trains_pk (store s1)) as Hpk1 by (rewrite S1; exact Hpk).
  assert (In t (trains (store s1))) as Ht1 by (rewrite S1; exact Ht).
  destruct (book_seat_free http_str b2 u2 s1 t F1 Hpk1 Ht1 (eq_sym E2))
    as (s2 & R2 & S2 & Q2 & F2); [lia|].
  assert (count_booked_seats (t_id t) (store s2) = 2) as Hc2.
  { rewrite S2, count_with_booking, Hc1. cbn [booked b_train_id].
    now rewrite E2, Z.eqb_refl. }
  assert (trains_pk (store s2)) as Hpk2 by (rewrite S2; exact Hpk1).
  assert (In t (trains (store s2))) as Ht2 by (rewrite S2; exact Ht1).
  destruct (book_seat_full http_str b3 u3 s2 t F2 Hpk2 Ht2 (eq_sym E3))
    as (s3 & R3 & S3 & F3); [lia|].
  exists s1, s2, s3, (booked b1 u1 s), (booked b2 u2 s1).
  repeat split; try assumption.
  - cbn. lia.
  - rewrite S3, S2, S1, !bookings_of_with_booking, Hnone.
    cbn [booked b_train_id]. now rewrite E1, E2, Z.eqb_refl.
Qed.

Lemma three_bookings_on_two_seats_witness :
  exists s1 s2 s3 g1 g2,
    book_seat starlette_str seat5 alice server0 = (s1, Return g1) /\
    book_seat starlette_str seat6 bob s1 = (s2, Return g2) /\
    book_seat starlette_str seat5 bob s2
    = (s3, Raise (HTTPException 400
                    (str starlette_str
                       (HTTPException 400 "No seats available")))) /\
    b_id g1 <> b_id g2 /\
    bookings_of (t_id T2) (store s3) = [g1; g2].
Proof.
  apply (three_bookings_on_two_seats starlette_str server0 T2
           seat5 seat6 seat5 alice bob bob); try reflexivity.
  - repeat constructor; cbn; tauto.
  - cbn. tauto.
Defined.

(** ** Failed bookings *)

(** C4. Commit atomicity: whenever [book_seat] raises, for whatever reason
    (connection refused, train not found, no seat left, an error of the
    store on any statement, on the commit or on the rollback), the
    committed tables, and so the bookings of every train, are exactly those
    from before the call. *)
Theorem book_seat_failure_atomic http_str booking user s s' e :
  book_seat http_str booking user s = (s', Raise e) ->
  store s' = store s /\
  forall tid, bookings_of tid (store s') = bookings_of tid (store s).
Proof.
  intros Hrun.
  destruct (book_seat_outcome _ _ _ _ _ _ Hrun)
    as [(e' & _ & Hst & _) | (row & _ & _ & [=] & _)].
  split; [exact Hst|]. intros tid. now rewrite Hst.
Qed.

Lemma book_seat_failure_atomic_witness :
  store (fst (book_seat starlette_str seat5 alice server_commit_fails))
  = store server_commit_fails /\
  forall tid,
    bookings_of tid
      (store (fst (book_seat starlette_str seat5 alice server_commit_fails)))
    = bookings_of tid (store server_commit_fails).
Proof.
  apply (book_seat_failure_atomic starlette_str seat5 alice server_commit_fails
           _ (HTTPException 400 "could not commit")).
  vm_compute. reflexivity.
Defined.

(** C5. Booking on an unknown train: when no train has the requested id
    (and the store raises nothing), [book_seat] creates no booking, but
    the [HTTPException(404, "Train not found")] it raises is caught by its
    own [except Exception] clause and reaches the caller as status 400,
    with [str] of the 404 exception as detail. *)
Theorem book_seat_unknown_train http_str booking user s :
  faults s = [] ->
  (forall t, In t (trains (store s)) -> t_id t <> train_id booking) ->
  exists s',
    book_seat http_str booking user s
    = (s', Raise (HTTPException 400
                    (str http_str (HTTPException 404 "Train not found")))) /\
    store s' = store s.
Proof.
  intros Hf Hnone.
  destruct (book_seat_missing http_str booking user s Hf Hnone)
    as (s' & Hrun & Hst & _).
  exists s'. auto.
Qed.

Lemma book_seat_unknown_train_witness :
  exists s',
    book_seat starlette_str train9999 alice server0
    = (s', Raise (HTTPException 400 "404: Train not found")) /\
    store s' = store server0.
Proof.
  apply (book_seat_unknown_train starlette_str train9999 alice server0).
  - reflexivity.
  - intros t [<- | []]. cbn. lia.
Defined.

(** ** Seat numbers *)

(** C9. Duplicate seat numbers: on a train with at least two free seats,
    two [book_seat] calls for the same train with the same seat number
    (any integer at all) both succeed, and commit two bookings with
    distinct ids and identical train and seat number. *)
Theorem book_seat_same_seat_twice http_str s t seat u1 u2 :
  faults s = [] -> trains_pk (store s) -> In t (trains (store s)) ->
  count_booked_seats (t_id t) (store s) + 2 <= t_total_seats t ->
  exists s1 s2 g1 g2,
    book_seat http_str {| train_id := t_id t; seat_number := seat |} u1 s
    = (s1, Return g1) /\
    book_seat http_str {| train_id := t_id t; seat_number := seat |} u2 s1
    = (s2, Return g2) /\
    b_id g1 <> b_id g2 /\
    b_train_id g1 = t_id t /\ b_train_id g2 = t_id t /\
    b_seat_number g1 = seat /\ b_seat_number g2 = seat /\
    In g1 (bookings (store s2)) /\ In g2 (bookings (store s2)).
Proof.
  intros Hf Hpk Ht Hfree.
  set (booking := {| train_id := t_id t; seat_number := seat |}).
  destruct (book_seat_free http_str booking u1 s t Hf Hpk Ht eq_refl)
    as (s1 & R1 & S1 & Q1 & F1); [lia|].
  assert (count_booked_seats (t_id t) (store s1)
          = count_booked_seats (t_id t) (store s) + 1) as Hc1.
  { rewrite S1, count_with_booking. cbn. now rewrite Z.eqb_refl. }
  assert (trains_pk (store s1)) as Hpk1 by (rewrite S1; exact Hpk).
  assert (In t (trains (store s1))) as Ht1 by (rewrite S1; exact Ht).
  destruct (book_seat_free http_str booking u2 s1 t F1 Hpk1 Ht1 eq_refl)
    as (s2 & R2 & S2 & Q2 & F2); [lia|].
  exists s1, s2, (booked booking u1 s), (booked booking u2 s1).
  repeat split; try assumption; try reflexivity.
  - cbn. lia.
  - rewrite S2, S1. cbn. apply in_or_app. left. apply in_or_app. right.
    now left.
  - rewrite S2. cbn. apply in_or_app. right. now left.
Qed.

Lemma book_seat_same_seat_twice_witness :
  exists s1 s2 g1 g2,
    book_seat starlette_str {| train_id := t_id T2; seat_number := 5 |} alice
      server0 = (s1, Return g1) /\
    book_seat starlette_str {| train_id := t_id T2; seat_number := 5 |} bob s1
    = (s2, Return g2) /\
    b_id g1 <> b_id g2 /\
    b_train_id g1 = t_id T2 /\ b_train_id g2 = t_id T2 /\
    b_seat_number g1 = 5 /\ b_seat_number g2 = 5 /\
    In g1 (bookings (store s2)) /\ In g2 (bookings (store s2)).
Proof.
  apply (book_seat_same_seat_twice starlette_str server0 T2 5 alice bob).
  - reflexivity.
  - repeat constructor; cbn; tauto.
  - cbn. tauto.
  - cbn. lia.
Defined.

(** ** Unknown routes *)

(** C6, as the spec states it, fails: the availability handler takes a
    route, not a train id, and for a route that no train serves it returns
    the empty list instead of raising a 404. *)
Lemma get_seat_availability_unknown_route_returns :
  snd (get_seat_availability starlette_str
         {| source := "Agra"; destination := "Goa" |} server1)
  = Return [] /\
  forall detail,
    snd (get_seat_availability starlette_str
           {| source := "Agra"; destination := "Goa" |} server1)
    <> Raise (HTTPException 404 detail).
Proof.
  split; [reflexivity|]. intros detail. vm_compute. discriminate.
Qed.

(** C6 (amended). The availability handler takes a route (source and
    destination); when no train of the table serves that route it succeeds
    with an empty list of trains, and leaves the tables as they were. *)
Theorem get_seat_availability_no_train http_str route s :
  faults s = [] ->
  (forall t, In t (trains (store s)) -> on_route route t = false) ->
  exists s',
    get_seat_availability http_str route s = (s', Return []) /\
    store s' = store s.
Proof.
  intros Hf Hnone.
  destruct (get_seat_availability_run http_str route s Hf)
    as (s' & Hrun & Hst & _).
  rewrite (availability_query_no_route _ _ Hnone) in Hrun.
  exists s'. auto.
Qed.

Lemma get_seat_availability_no_train_witness :
  exists s',
    get_seat_availability starlette_str
      {| source := "Agra"; destination := "Goa" |} server1 = (s', Return []) /\
    store s' = store server1.
Proof.
  apply (get_seat_availability_no_train starlette_str
           {| source := "Agra"; destination := "Goa" |} server1).
  - reflexivity.
  - intros t [<- | [<- | []]]; reflexivity.
Defined.

(** ** Looking a booking up *)

(** C7. Ownership isolation: [get_booking_details] raises
    [HTTPException(404, "Booking not found")] when no booking has the
    requested id, and raises the very same exception when bookings with
    that id exist but belong to other users: the two outcomes are equal. *)
Theorem get_booking_details_hides_others http_str s1 s2 id1 id2 u1 u2 :
  faults s1 = [] -> faults s2 = [] ->
  booking_missing (store s1) id1 ->
  booking_of_other (store s2) id2 (user_id u2) ->
  snd (get_booking_details http_str id1 u1 s1)
  = Raise (HTTPException 404 "Booking not found") /\
  snd (get_booking_details http_str id2 u2 s2)
  = Raise (HTTPException 404 "Booking not found") /\
  snd (get_booking_details http_str id2 u2 s2)
  = snd (get_booking_details http_str id1 u1 s1).
Proof.
  intros Hf1 Hf2 Hmiss [_ Hother].
  destruct (get_booking_details_run http_str id1 u1 s1 Hf1) as (s1' & R1 & _).
  destruct (get_booking_details_run http_str id2 u2 s2 Hf2) as (s2' & R2 & _).
  rewrite booking_details_hidden in R1
    by (intros b Hb Hid; exfalso; exact (Hmiss b Hb Hid)).
  rewrite (booking_details_hidden _ _ _ Hother) in R2.
  rewrite R1, R2. cbn. auto.
Qed.

Lemma get_booking_details_hides_others_witness :
  snd (get_booking_details starlette_str 99 bob server1)
  = Raise (HTTPException 404 "Booking not found") /\
  snd (get_booking_details starlette_str 1 bob server1)
  = Raise (HTTPException 404 "Booking not found") /\
  snd (get_booking_details starlette_str 1 bob server1)
  = snd (get_booking_details starlette_str 99 bob server1).
Proof.
  apply (get_booking_details_hides_others starlette_str server1 server1
           99 1 bob bob).
  - reflexivity.
  - reflexivity.
  - intros b [<- | []]. cbn. lia.
  - split.
    + eexists. split; [left; reflexivity | reflexivity].
    + intros b [<- | []] _. cbn. lia.
Defined.

(** ** Reading a booking back *)

(** C8. Round trip: after a [book_seat] that returned the booking [g]
    (train ids being keys and booking ids drawn from the sequence),
    [get_booking_details] for [g]'s id and the same user returns [g]
    joined with the number, source and destination of its train, and the
    availability handler on that train's route shows one seat less than the
    query gave on the tables from before the booking. *)
Theorem book_seat_round_trip http_str booking user s s1 g :
  trains_pk (store s) -> bookings_serial s ->
  book_seat http_str booking user s = (s1, Return g) ->
  faults s1 = [] ->
  exists t s2 s3 rows,
    In t (trains (store s)) /\ t_id t = train_id booking /\
    get_booking_details http_str (b_id g) user s1
    = (s2, Return (details_of g t)) /\
    In (availability_of (store s) t)
       (availability_query (route_of t) (store s)) /\
    get_seat_availability http_str (route_of t) s1 = (s3, Return rows) /\
    In {| row_train := t;
          available_seats :=
            available_seats (availability_of (store s) t) - 1 |} rows.
Proof.
  intros Hpk Hser Hrun Hf1.
  destruct (book_seat_commits _ _ _ _ _ _ Hrun)
    as (t & Ht & Hid & Hlt & Hg & Hst & Hseq & _).
  assert (user_id user = b_user_id g) as Hu by (rewrite Hg; reflexivity).
  assert (t_id t = b_train_id g) as Htg by (rewrite Hg, Hid; reflexivity).
  destruct (get_booking_details_run http_str (b_id g) user s1 Hf1)
    as (s2 & R2 & _).
  rewrite Hst, Hu, (booking_details_fresh (store s) g t Hpk Ht Htg) in R2.
  2:{ intros b Hb. specialize (Hser b Hb). rewrite Hg. cbn. lia. }
  destruct (get_seat_availability_run http_str (route_of t) s1 Hf1)
    as (s3 & R3 & _).
  rewrite availability_query_rows in R3 by (rewrite Hst; exact Hpk).
  exists t, s2, s3,
    (map (availability_of (store s1))
         (filter (on_route (route_of t)) (trains (store s1)))).
  repeat split; try assumption.
  - rewrite (availability_query_rows _ _ Hpk).
    apply in_map, filter_In. split; [exact Ht | apply on_route_route_of].
  - replace {| row_train := t;
               available_seats :=
                 available_seats (availability_of (store s) t) - 1 |}
      with (availability_of (store s1) t).
    + apply in_map, filter_In. rewrite Hst.
      split; [exact Ht | apply on_route_route_of].
    + unfold availability_of. rewrite Hst, count_with_booking, <- Htg.
      rewrite Z.eqb_refl. cbn. f_equal. lia.
Qed.

Lemma book_seat_round_trip_witness :
  exists t s2 s3 rows,
    In t (trains (store server1)) /\ t_id t = train_id seat6 /\
    get_booking_details starlette_str 2 bob
      (fst (book_seat starlette_str seat6 bob server1))
    = (s2, Return (details_of (booked seat6 bob server1) t)) /\
    In (availability_of (store server1) t)
       (availability_query (route_of t) (store server1)) /\
    get_seat_availability starlette_str (route_of t)
      (fst (book_seat starlette_str seat6 bob server1))
    = (s3, Return rows) /\
    In {| row_train := t;
          available_seats :=
            available_seats (availability_of (store server1) t) - 1 |} rows.
Proof.
  apply (book_seat_round_trip starlette_str seat6 bob server1
           (fst (book_seat starlette_str seat6 bob server1))
           (booked seat6 bob server1)).
  - repeat constructor; cbn; intuition discriminate.
  - intros b [<- | []]. cbn. lia.
  - vm_compute. reflexivity.
  - vm_compute. reflexivity.
Defined.

(** ** Connection failures *)

(** C10, as the spec states it, fails: two different errors of
    [psycopg2.connect] reach the caller of [book_seat] as two different
    details, each carrying the text of the store's error. *)
Lemma connection_failure_shows_store_error :
  snd (book_seat starlette_str seat5 alice
         (set_faults [Some "timeout expired"] server0))
  = Raise (HTTPException 500 "Database connection failed: timeout expired") /\
  snd (book_seat starlette_str seat5 alice
         (set_faults [Some "no route to host 10.0.0.5"] server0))
  = Raise (HTTPException 500
             "Database connection failed: no route to host 10.0.0.5") /\
  snd (book_seat starlette_str seat5 alice
         (set_faults [Some "timeout expired"] server0))
  <> snd (book_seat starlette_str seat5 alice
            (set_faults [Some "no route to host 10.0.0.5"] server0)).
Proof.
  repeat split; try reflexivity. vm_compute. discriminate.
Qed.

(** C10 (amended). When [psycopg2.connect] raises, [get_db_connection],
    and with it every handler, raises status 500 with the detail
    "Database connection failed: " followed by the text of the store's
    error, and the tables are untouched: two store errors give the same
    status code, and the same failure exactly when their texts are equal. *)
Theorem connection_failure_detail http_str s1 s2 m1 m2 rest1 rest2 :
  faults s1 = Some m1 :: rest1 -> faults s2 = Some m2 :: rest2 ->
  get_db_connection http_str s1
  = (set_faults rest1 s1, Raise (connection_failed m1)) /\
  (forall booking user,
     book_seat http_str booking user s1
     = (set_faults rest1 s1, Raise (connection_failed m1))) /\
  (forall route,
     get_seat_availability http_str route s1
     = (set_faults rest1 s1, Raise (connection_failed m1))) /\
  (forall booking_id user,
     get_booking_details http_str booking_id user s1
     = (set_faults rest1 s1, Raise (connection_failed m1))) /\
  (snd (get_db_connection http_str s1) = snd (get_db_connection http_str s2)
   <-> m1 = m2).
Proof.
  intros H1 H2.
  assert (forall s m rest, faults s = Some m :: rest ->
            get_db_connection http_str s
            = (set_faults rest s, Raise (connection_failed m))) as Hc
      by (intros s m rest Hf; run_handler; now rewrite Hf).
  repeat split.
  - now apply Hc.
  - intros. run_handler. now rewrite H1.
  - intros. run_handler. now rewrite H1.
  - intros. run_handler. now rewrite H1.
  - rewrite (Hc _ _ _ H1), (Hc _ _ _ H2). cbn [snd]. intros [= E].
    exact E.
  - intros ->. now rewrite (Hc _ _ _ H1), (Hc _ _ _ H2).
Qed.

Lemma connection_failure_detail_witness :
  get_db_connection starlette_str (set_faults [Some "timeout expired"] server0)
  = (set_faults [] (set_faults [Some "timeout expired"] server0),
     Raise (connection_failed "timeout expired")) /\
  (forall booking user,
     book_seat starlette_str booking user
       (set_faults [Some "timeout expired"] server0)
     = (set_faults [] (set_faults [Some "timeout expired"] server0),
        Raise (connection_failed "timeout expired"))) /\
  (forall route,
     get_seat_availability starlette_str route
       (set_faults [Some "timeout expired"] server0)
     = (set_faults [] (set_faults [Some "timeout expired"] server0),
        Raise (connection_failed "timeout expired"))) /\
  (forall booking_id user,
     get_booking_details starlette_str booking_id user
       (set_faults [Some "timeout expired"] server0)
     = (set_faults [] (set_faults [Some "timeout expired"] server0),
        Raise (connection_failed "timeout expired"))) /\
  (snd (get_db_connection starlette_str
          (set_faults [Some "timeout expired"] server0))
   = snd (get_db_connection starlette_str
            (set_faults [Some "no route to host 10.0.0.5"] server1))
   <-> "timeout expired" = "no route to host 10.0.0.5").
Proof.
  apply (connection_failure_detail starlette_str
           (set_faults [Some "timeout expired"] server0)
           (set_faults [Some "no route to host 10.0.0.5"] server1)
           "timeout expired" "no route to host 10.0.0.5" [] []).
  - reflexivity.
  - reflexivity.
Defined.

(** * Further properties of the handlers *)

Ltac classify :=
  intros [= <- <-]; unfold connection_failed;
  first [ left; eexists; reflexivity
        | right; left; eexists; reflexivity
        | right; right; eexists; reflexivity ].

Ltac pick_case :=
  first [ reflexivity | eexists; reflexivity
        | left; pick_case | right; pick_case ].

(** Well-formedness of the concrete tables. *)
Lemma trains_pk_server1 : trains_pk (store server1).
Proof. repeat constructor; cbn; intuition discriminate. Qed.

Lemma no_overbooking_server1 : no_overbooking (store server1).
Proof. intros t [<- | [<- | []]]; cbn; lia. Qed.

Lemma bookings_serial_server1 : bookings_serial server1.
Proof. intros b [<- | []]. cbn. lia. Qed.

Lemma bookings_unique_server1 : bookings_unique (store server1).
Proof. repeat constructor. cbn. tauto. Qed.

Lemma bookings_reference_trains_server1 :
  bookings_reference_trains (store server1).
Proof. intros b [<- | []]. exists T2. cbn. auto. Qed.

(** ** When a booking succeeds *)

(** X1. Without store errors, [book_seat] returns a booking exactly when
    the requested train exists and has fewer bookings than seats. *)
Theorem book_seat_succeeds_iff http_str booking user s :
  faults s = [] -> trains_pk (store s) ->
  (exists s' g, book_seat http_str booking user s = (s', Return g)) <->
  (exists t, In t (trains (store s)) /\ t_id t = train_id booking /\
             count_booked_seats (t_id t) (store s) < t_total_seats t).
Proof.
  intros Hf Hpk. split.
  - intros (s' & g & Hrun).
    destruct (book_seat_commits _ _ _ _ _ _ Hrun) as (t & Ht & Hid & Hlt & _).
    exists t. auto.
  - intros (t & Ht & Hid & Hlt).
    destruct (book_seat_free http_str booking user s t Hf Hpk Ht Hid Hlt)
      as (s' & Hrun & _).
    eauto.
Qed.

Lemma book_seat_succeeds_iff_witness :
  (exists s' g, book_seat starlette_str seat5 alice server0 = (s', Return g))
  <->
  (exists t, In t (trains (store server0)) /\ t_id t = train_id seat5 /\
             count_booked_seats (t_id t) (store server0) < t_total_seats t).
Proof.
  apply (book_seat_succeeds_iff starlette_str seat5 alice server0).
  - reflexivity.
  - exact trains_pk_server0.
Defined.

(** X2. The booking that [book_seat] returns carries the next id of the
    sequence, the user id of the caller's token, the requested train and
    seat number and the store's timestamp; it is appended to the committed
    bookings, and the trains are untouched. *)
Theorem book_seat_records_request http_str booking user s s' g :
  book_seat http_str booking user s = (s', Return g) ->
  b_id g = bookings_id_seq s + 1 /\
  b_user_id g = user_id user /\
  b_train_id g = train_id booking /\
  b_seat_number g = seat_number booking /\
  b_booking_date g = now s /\
  trains (store s') = trains (store s) /\
  bookings (store s') = (bookings (store s) ++ [g])%list.
Proof.
  intros Hrun.
  destruct (book_seat_commits _ _ _ _ _ _ Hrun)
    as (t & _ & _ & _ & -> & -> & _).
  cbn. auto 10.
Qed.

Lemma book_seat_records_request_witness :
  b_id (booked seat6 bob server1) = bookings_id_seq server1 + 1 /\
  b_user_id (booked seat6 bob server1) = user_id bob /\
  b_train_id (booked seat6 bob server1) = train_id seat6 /\
  b_seat_number (booked seat6 bob server1) = seat_number seat6 /\
  b_booking_date (booked seat6 bob server1) = now server1 /\
  trains (store (fst (book_seat starlette_str seat6 bob server1)))
  = trains (store server1) /\
  bookings (store (fst (book_seat starlette_str seat6 bob server1)))
  = (bookings (store server1) ++ [booked seat6 bob server1])%list.
Proof.
  apply (book_seat_records_request starlette_str seat6 bob server1).
  vm_compute. reflexivity.
Defined.

(** ** How a booking fails *)

(** X3. Whatever the store does, an exception leaving [book_seat] is the
    500 of a refused connection, an [HTTPException] with status 400, or
    the raw error of a failed rollback: no 404 ever leaves it. *)
Theorem book_seat_raises http_str booking user s s' e :
  book_seat http_str booking user s = (s', Raise e) ->
  (exists msg, e = connection_failed msg) \/
  (exists detail, e = HTTPException 400 detail) \/
  (exists msg, e = Psycopg2Error msg).
Proof.
  run_handler.
  destruct (faults s)
    as [|[m1|] [|[m2|] [|[m3|] [|[m4|] [|[m5|] [|[m6|] fs]]]]]] eqn:Hf;
    norm_faults Hf.
  all: try solve [classify].
  all: destruct (fetchone _) as [train|] eqn:Hrow; norm_faults Hf.
  all: try solve [classify].
  all: destruct (_ >=? _) eqn:Hge; norm_faults Hf.
  all: try solve [classify].
  all: intros [=].
Qed.

Lemma book_seat_raises_witness :
  (exists msg, HTTPException 400 "404: Train not found" = connection_failed msg)
  \/
  (exists detail,
      HTTPException 400 "404: Train not found" = HTTPException 400 detail) \/
  (exists msg, HTTPException 400 "404: Train not found" = Psycopg2Error msg).
Proof.
  apply (book_seat_raises starlette_str train9999 alice server0
           (fst (book_seat starlette_str train9999 alice server0))).
  vm_compute. reflexivity.
Defined.

(** X4. An error of the store on the first statement of [book_seat]
    (after a good connection, and with a working rollback) reaches the
    caller as status 400 whose detail is the store's error text, and the
    session is closed with nothing committed. *)
Theorem book_seat_store_error_detail http_str booking user s msg rest :
  faults s = None :: Some msg :: None :: rest ->
  book_seat http_str booking user s
  = (set_autocommit true (set_txn (store s) (set_faults rest s)),
     Raise (HTTPException 400 msg)).
Proof.
  intros Hf. run_handler. norm_faults Hf. reflexivity.
Qed.

Lemma book_seat_store_error_detail_witness :
  book_seat starlette_str seat5 alice server_select_fails
  = (set_autocommit true
       (set_txn (store server_select_fails)
          (set_faults [] server_select_fails)),
     Raise (HTTPException 400 "deadlock detected")).
Proof.
  apply (book_seat_store_error_detail starlette_str seat5 alice
           server_select_fails "deadlock detected" []).
  reflexivity.
Defined.





(** ** Sequences of bookings *)

Lemma serve_bookings_keeps_tables_witness :
  trains_pk (store (serve_bookings starlette_str requests0 server0)) /\
  no_overbooking (store (serve_bookings starlette_str requests0 server0)).
Proof.
  apply (serve_bookings_keeps_tables starlette_str requests0 server0).
  - exact trains_pk_server0.
  - exact no_overbooking_server0.
Defined.

Lemma book_seat_keeps_trains http_str booking user s :
  trains (store (fst (book_seat http_str booking user s))) = trains (store s).
Proof.
  destruct (book_seat http_str booking user s) as [s' r] eqn:Hrun.
  destruct (book_seat_outcome _ _ _ _ _ _ Hrun)
    as [(e & _ & Hst & _) | (row & _ & _ & _ & Hst & _)];
    cbn [fst]; now rewrite Hst.
Qed.

(** X8. Booking requests never change the [trains] table, whatever they
    return and whatever the store raises. *)
Theorem serve_bookings_keeps_trains http_str requests s :
  trains (store (serve_bookings http_str requests s)) = trains (store s).
Proof.
  revert s. induction requests as [|[booking user] rest IH]; intros s; cbn.
  - reflexivity.
  - now rewrite IH, book_seat_keeps_trains.
Qed.

Lemma book_seat_keeps_unique http_str booking user s s' r :
  bookings_serial s -> bookings_unique (store s) ->
  book_seat http_str booking user s = (s', r) ->
  bookings_unique (store s').
Proof.
  intros Hser Hu Hrun.
  destruct (book_seat_outcome _ _ _ _ _ _ Hrun)
    as [(e & _ & Hst & _) | (row & _ & _ & _ & Hst & _)]; rewrite Hst.
  - exact Hu.
  - unfold bookings_unique, with_booking. cbn [bookings].
    rewrite map_app. cbn [map].
    apply NoDup_app; [exact Hu | repeat constructor; intros [] |].
    intros x Hx [<- | []]. apply in_map_iff in Hx.
    destruct Hx as (b & Hid & Hb). specialize (Hser b Hb). cbn in Hid. lia.
Qed.

(** X9. If the booking ids are distinct and none exceeds the sequence,
    this is still so after any sequence of booking requests: [book_seat]
    never hands out an id twice, even when the store fails on the way. *)
Theorem serve_bookings_ids_unique http_str requests s :
  bookings_serial s -> bookings_unique (store s) ->
  bookings_serial (serve_bookings http_str requests s) /\
  bookings_unique (store (serve_bookings http_str requests s)).
Proof.
  revert s. induction requests as [|[booking user] rest IH]; intros s Hser Hu.
  - cbn. auto.
  - cbn. destruct (book_seat http_str booking user s) as [s' r] eqn:Hrun.
    apply IH.
    + exact (book_seat_keeps_serial _ _ _ _ _ _ Hser Hrun).
    + exact (book_seat_keeps_unique _ _ _ _ _ _ Hser Hu Hrun).
Qed.

Lemma serve_bookings_ids_unique_witness :
  bookings_serial (serve_bookings starlette_str requests0 server1) /\
  bookings_unique (store (serve_bookings starlette_str requests0 server1)).
Proof.
  apply (serve_bookings_ids_unique starlette_str requests0 server1).
  - exact bookings_serial_server1.
  - exact bookings_unique_server1.
Defined.

Lemma book_seat_keeps_references http_str booking user s s' r :
  bookings_reference_trains (store s) ->
  book_seat http_str booking user s = (s', r) ->
  bookings_reference_trains (store s').
Proof.
  intros Href Hrun. destruct r as [g | e].
  - destruct (book_seat_commits _ _ _ _ _ _ Hrun)
      as (t & Ht & Hid & _ & Hg & Hst & _).
    rewrite Hst. intros b Hb. cbn in *. apply in_app_or in Hb.
    destruct Hb as [Hb | [<- | []]]; [now apply Href|].
    exists t. rewrite Hg. cbn. auto.
  - destruct (book_seat_outcome _ _ _ _ _ _ Hrun)
      as [(e' & _ & Hst & _) | (row & _ & _ & [=] & _)].
    now rewrite Hst.
Qed.

(** X10. If every booking is for a train of the table, this is still so
    after any sequence of booking requests: [book_seat] never commits a
    booking for a train that does not exist. *)
Theorem serve_bookings_reference_trains http_str requests s :
  bookings_reference_trains (store s) ->
  bookings_reference_trains (store (serve_bookings http_str requests s)).
Proof.
  revert s. induction requests as [|[booking user] rest IH]; intros s Href.
  - exact Href.
  - cbn. destruct (book_seat http_str booking user s) as [s' r] eqn:Hrun.
    apply IH. exact (book_seat_keeps_references _ _ _ _ _ _ Href Hrun).
Qed.

Lemma serve_bookings_reference_trains_witness :
  bookings_reference_trains
    (store (serve_bookings starlette_str requests0 server1)).
Proof.
  apply (serve_bookings_reference_trains starlette_str requests0 server1).
  exact bookings_reference_trains_server1.
Defined.

Lemma book_seat_fills http_str booking user s t :
  faults s = [] -> trains_pk (store s) -> In t (trains (store s)) ->
  train_id booking = t_id t ->
  count_booked_seats (t_id t) (store s) <= t_total_seats t ->
  faults (fst (book_seat http_str booking user s)) = [] /\
  trains (store (fst (book_seat http_str booking user s))) = trains (store s) /\
  count_booked_seats (t_id t) (store (fst (book_seat http_str booking user s)))
  = Z.min (t_total_seats t) (count_booked_seats (t_id t) (store s) + 1).
Proof.
  intros Hf Hpk Ht Hid Hle.
  destruct (Z.lt_ge_cases (count_booked_seats (t_id t) (store s))
                          (t_total_seats t)) as [Hlt | Hge].
  - destruct (book_seat_free http_str booking user s t Hf Hpk Ht
                (eq_sym Hid) Hlt) as (s' & Hrun & Hst & _ & Hf').
    rewrite Hrun. cbn [fst]. rewrite Hst, count_with_booking.
    cbn [booked b_train_id with_booking trains]. rewrite Hid, Z.eqb_refl.
    repeat split; [exact Hf' | lia].
  - destruct (book_seat_full http_str booking user s t Hf Hpk Ht
                (eq_sym Hid) Hge) as (s' & Hrun & Hst & Hf').
    rewrite Hrun. cbn [fst]. rewrite Hst.
    repeat split; [exact Hf' | lia].
Qed.

(** X11. Without store errors, [n] booking requests in a row for one
    train that holds [c] bookings of its [C] seats leave it with
    [min C (c + n)] bookings: the requests succeed until the train is
    full, and every later one is refused. *)
Theorem serve_bookings_fills_train http_str requests s t :
  faults s = [] -> trains_pk (store s) -> In t (trains (store s)) ->
  (forall booking user, In (booking, user) requests ->
                        train_id booking = t_id t) ->
  count_booked_seats (t_id t) (store s) <= t_total_seats t ->
  count_booked_seats (t_id t) (store (serve_bookings http_str requests s))
  = Z.min (t_total_seats t)
          (count_booked_seats (t_id t) (store s)
           + Z.of_nat (List.length requests)).
Proof.
  revert s.
  induction requests as [|[booking user] rest IH]; intros s Hf Hpk Ht Hall Hle.
  - cbn. lia.
  - assert (train_id booking = t_id t) as Hid by (apply (Hall _ user); now left).
    destruct (book_seat_fills http_str booking user s t Hf Hpk Ht Hid Hle)
      as (Hf' & Htr & Hc).
    cbn [serve_bookings]. rewrite IH.
    + rewrite Hc. cbn [List.length]. lia.
    + exact Hf'.
    + unfold trains_pk. rewrite Htr. exact Hpk.
    + rewrite Htr. exact Ht.
    + intros b u Hin. apply (Hall b u). now right.
    + rewrite Hc. lia.
Qed.

Lemma serve_bookings_fills_train_witness :
  count_booked_seats (t_id T2)
    (store (serve_bookings starlette_str requests0 server0))
  = Z.min (t_total_seats T2)
          (count_booked_seats (t_id T2) (store server0)
           + Z.of_nat (List.length requests0)).
Proof.
  apply (serve_bookings_fills_train starlette_str requests0 server0 T2).
  - reflexivity.
  - exact trains_pk_server0.
  - cbn. tauto.
  - intros booking user [[= <- <-] | [[= <- <-] | [[= <- <-] | []]]];
      reflexivity.
  - cbn. lia.
Defined.

(** ** The availability handler *)

(** X12. With [trains.id] a key and no store error, the availability
    handler returns exactly one row per train on the route, in table
    order, however many bookings each train has. *)
Theorem get_seat_availability_rows http_str route s :
  faults s = [] -> trains_pk (store s) ->
  exists s',
    get_seat_availability http_str route s
    = (s', Return (map (availability_of (store s))
                       (filter (on_route route) (trains (store s))))).
Proof.
  intros Hf Hpk.
  destruct (get_seat_availability_run http_str route s Hf) as (s' & Hrun & _).
  exists s'. now rewrite Hrun, (availability_query_rows _ _ Hpk).
Qed.

Lemma get_seat_availability_rows_witness :
  exists s',
    get_seat_availability starlette_str (route_of T2) server1
    = (s', Return (map (availability_of (store server1))
                       (filter (on_route (route_of T2))
                               (trains (store server1))))).
Proof.
  apply (get_seat_availability_rows starlette_str (route_of T2) server1).
  - reflexivity.
  - exact trains_pk_server1.
Defined.

(** X13. On tables without overbooking, every row the availability
    handler returns has [available_seats] between zero and the train's
    [total_seats]. *)
Theorem get_seat_availability_bounds http_str route s s' rows row :
  trains_pk (store s) -> no_overbooking (store s) ->
  get_seat_availability http_str route s = (s', Return rows) ->
  In row rows ->
  0 <= available_seats row <= t_total_seats (row_train row).
Proof.
  intros Hpk Hinv. run_handler.
  destruct (faults s) as [|[m1|] [|[m2|] fs]] eqn:Hf; norm_faults Hf;
    try discriminate.
  all: intros [= _ <-]; rewrite (availability_query_rows _ _ Hpk).
  all: intros Hin; apply in_map_iff in Hin; destruct Hin as (t & <- & Ht).
  all: apply filter_In in Ht; destruct Ht as [Ht _]; specialize (Hinv t Ht).
  all: unfold availability_of, count_booked_seats in *; cbn; lia.
Qed.

Lemma get_seat_availability_bounds_witness :
  0 <= available_seats (availability_of (store server1) T2)
  <= t_total_seats (row_train (availability_of (store server1) T2)).
Proof.
  apply (get_seat_availability_bounds starlette_str (route_of T2) server1
           (fst (get_seat_availability starlette_str (route_of T2) server1))
           (map (availability_of (store server1)) [T1; T2])).
  - exact trains_pk_server1.
  - exact no_overbooking_server1.
  - vm_compute. reflexivity.
  - right. left. reflexivity.
Defined.

(** X14. The availability handler never changes the committed tables or
    the booking sequence, whatever the store raises. *)
Theorem get_seat_availability_read_only http_str route s :
  store (fst (get_seat_availability http_str route s)) = store s /\
  bookings_id_seq (fst (get_seat_availability http_str route s))
  = bookings_id_seq s.
Proof.
  run_handler.
  destruct (faults s) as [|[m1|] [|[m2|] fs]] eqn:Hf; norm_faults Hf; auto.
Qed.

(** X15. The two handlers agree: without store errors, [book_seat] for a
    train succeeds exactly when the availability handler, asked for that
    train's route, reports a positive [available_seats] for it. *)
Theorem book_seat_agrees_with_availability http_str booking user s t :
  faults s = [] -> trains_pk (store s) -> In t (trains (store s)) ->
  train_id booking = t_id t ->
  (exists s' g, book_seat http_str booking user s = (s', Return g)) <->
  (exists s' rows row,
      get_seat_availability http_str (route_of t) s = (s', Return rows) /\
      In row rows /\ row_train row = t /\ 0 < available_seats row).
Proof.
  intros Hf Hpk Ht Hid.
  rewrite (book_seat_succeeds_iff _ _ _ _ Hf Hpk).
  destruct (get_seat_availability_rows http_str (route_of t) s Hf Hpk)
    as (s1 & Hrun).
  split.
  - intros (t' & Ht' & Hid' & Hlt).
    assert (t' = t) as -> by (apply (pk_unique _ _ _ Hpk); congruence).
    eexists s1, _, (availability_of (store s) t).
    split; [exact Hrun|]. split.
    + apply in_map, filter_In. split; [exact Ht | apply on_route_route_of].
    + cbn. split; [reflexivity | lia].
  - intros (s' & rows & row & Hrun' & Hin & Hrow & Hpos).
    rewrite Hrun in Hrun'. injection Hrun' as _ <-.
    apply in_map_iff in Hin. destruct Hin as (t' & <- & _).
    cbn in Hrow. subst t'. cbn in Hpos.
    exists t. repeat split; [exact Ht | congruence | lia].
Qed.

Lemma book_seat_agrees_with_availability_witness :
  (exists s' g, book_seat starlette_str seat6 bob server1 = (s', Return g)) <->
  (exists s' rows row,
      get_seat_availability starlette_str (route_of T2) server1
      = (s', Return rows) /\
      In row rows /\ row_train row = T2 /\ 0 < available_seats row).
Proof.
  apply (book_seat_agrees_with_availability starlette_str seat6 bob server1 T2).
  - reflexivity.
  - exact trains_pk_server1.
  - cbn. tauto.
  - reflexivity.
Defined.

(** ** The booking lookup *)

Lemma fetchone_In {A} (rows : list A) (r : A) :
  fetchone rows = Some r -> In r rows.
Proof. destruct rows; [discriminate|]. intros [= ->]. now left. Qed.

Lemma in_join_trains bs ts b t :
  In (b, t) (join_trains bs ts)
  <-> In b bs /\ In t ts /\ t_id t = b_train_id b.
Proof.
  unfold join_trains. rewrite in_flat_map. split.
  - intros (b' & Hb' & H). apply in_map_iff in H.
    destruct H as (t' & [= -> ->] & Ht'). apply filter_In in Ht'.
    destruct Ht' as [Ht' E]. apply Z.eqb_eq in E. auto.
  - intros (Hb & Ht & E). exists b. split; [exact Hb|].
    apply in_map, filter_In. split; [exact Ht|]. apply Z.eqb_eq. auto.
Qed.

Lemma in_booking_details_query booking_id uid d row :
  In row (booking_details_query booking_id uid d)
  <-> exists b t,
        In b (bookings d) /\ In t (trains d) /\ t_id t = b_train_id b /\
        b_id b = booking_id /\ b_user_id b = uid /\ row = details_of b t.
Proof.
  unfold booking_details_query. rewrite in_map_iff. split.
  - intros ([b t] & <- & H). apply filter_In in H. destruct H as [Hj Hw].
    apply in_join_trains in Hj. apply andb_true_iff in Hw.
    cbn in Hw. rewrite !Z.eqb_eq in Hw.
    exists b, t. unfold details_of. cbn. tauto.
  - intros (b & t & Hb & Ht & E & Hid & Hu & ->). exists (b, t).
    split; [reflexivity|]. apply filter_In. split.
    + apply in_join_trains. auto.
    + cbn. apply andb_true_iff. rewrite !Z.eqb_eq. auto.
Qed.

(** X16. Whatever [get_booking_details] returns is a committed booking
    with the requested id that belongs to the caller, joined with the
    train it was made for: it never returns another user's booking. *)
Theorem get_booking_details_returns_own http_str booking_id user s s' row :
  get_booking_details http_str booking_id user s = (s', Return row) ->
  In (d_booking row) (bookings (store s)) /\
  b_id (d_booking row) = booking_id /\
  b_user_id (d_booking row) = user_id user /\
  exists t, In t (trains (store s)) /\ t_id t = b_train_id (d_booking row) /\
            row = details_of (d_booking row) t.
Proof.
  run_handler.
  destruct (faults s) as [|[m1|] [|[m2|] fs]] eqn:Hf; norm_faults Hf;
    try discriminate.
  all: destruct (fetchone _) as [r|] eqn:Hrow; norm_faults Hf;
    try discriminate.
  all: intros [= _ ->]; apply fetchone_In, in_booking_details_query in Hrow.
  all: destruct Hrow as (b & t & Hb & Ht & E & Hid & Hu & ->); cbn; eauto 8.
Qed.

Lemma get_booking_details_returns_own_witness :
  In (d_booking (details_of booking1 T2)) (bookings (store server1)) /\
  b_id (d_booking (details_of booking1 T2)) = 1 /\
  b_user_id (d_booking (details_of booking1 T2)) = user_id alice /\
  exists t, In t (trains (store server1)) /\
            t_id t = b_train_id (d_booking (details_of booking1 T2)) /\
            details_of booking1 T2
            = details_of (d_booking (details_of booking1 T2)) t.
Proof.
  apply (get_booking_details_returns_own starlette_str 1 alice server1
           (fst (get_booking_details starlette_str 1 alice server1))).
  vm_compute. reflexivity.
Defined.

(** X17. Without store errors, [get_booking_details] returns a row
    exactly when some booking has the requested id, belongs to the caller
    and is for a train that is in the table; otherwise it raises the 404. *)
Theorem get_booking_details_found_iff http_str booking_id user s :
  faults s = [] ->
  (exists s' row,
      get_booking_details http_str booking_id user s = (s', Return row)) <->
  (exists b t, In b (bookings (store s)) /\ In t (trains (store s)) /\
               b_id b = booking_id /\ b_user_id b = user_id user /\
               t_id t = b_train_id b).
Proof.
  intros Hf. split.
  - intros (s' & row & Hrun).
    destruct (get_booking_details_returns_own _ _ _ _ _ _ Hrun)
      as (Hb & Hid & Hu & t & Ht & E & _).
    exists (d_booking row), t. auto.
  - intros (b & t & Hb & Ht & Hid & Hu & E).
    destruct (get_booking_details_run http_str booking_id user s Hf)
      as (s' & Hrun & _).
    destruct (fetchone _) as [row|] eqn:Hrow; [eauto|].
    assert (In (details_of b t)
               (booking_details_query booking_id (user_id user) (store s)))
      as Hin by (apply in_booking_details_query; exists b, t; auto 8).
    unfold fetchone in Hrow.
    destruct (booking_details_query _ _ _); [destruct Hin | discriminate].
Qed.

Lemma get_booking_details_found_iff_witness :
  (exists s' row,
      get_booking_details starlette_str 1 alice server1 = (s', Return row)) <->
  (exists b t, In b (bookings (store server1)) /\
               In t (trains (store server1)) /\
               b_id b = 1 /\ b_user_id b = user_id alice /\
               t_id t = b_train_id b).
Proof.
  apply (get_booking_details_found_iff starlette_str 1 alice server1).
  reflexivity.
Defined.

Lemma booking_filter bs b uid :
  NoDup (map b_id bs) -> In b bs -> b_user_id b = uid ->
  filter (fun b' => Z.eqb (b_id b') (b_id b) && Z.eqb (b_user_id b') uid) bs
  = [b].
Proof.
  induction bs as [|a bs IH]; intros Hnd Hb Hu; [destruct Hb|].
  cbn in *. inversion Hnd as [|? ? Hn Hd]; subst.
  destruct Hb as [-> | Hb].
  - rewrite !Z.eqb_refl. cbn. f_equal. apply filter_none.
    intros x Hx. apply andb_false_iff. left. apply Z.eqb_neq. intros E.
    apply Hn. rewrite <- E. now apply in_map.
  - replace (Z.eqb (b_id a) (b_id b)) with false; [now apply IH|].
    symmetry. apply Z.eqb_neq. intros E. apply Hn. rewrite E.
    now apply in_map.
Qed.

Lemma filter_join_trains (p : Booking -> bool) bs ts :
  filter (fun r => p (fst r)) (join_trains bs ts)
  = join_trains (filter p bs) ts.
Proof.
  unfold join_trains. induction bs as [|b bs IH]; cbn; [reflexivity|].
  rewrite filter_app, IH. destruct (p b) eqn:E; cbn.
  - f_equal. apply filter_all. intros r Hr. apply in_map_iff in Hr.
    destruct Hr as (t & <- & _). exact E.
  - rewrite filter_none; [reflexivity|]. intros r Hr. apply in_map_iff in Hr.
    destruct Hr as (t & <- & _). exact E.
Qed.

(** X18. With distinct booking ids and [trains.id] a key, the owner of
    any committed booking whose train exists reads back exactly that
    booking, joined with the number, source and destination of its
    train. *)
Theorem get_booking_details_of_owner http_str user s b t :
  faults s = [] -> trains_pk (store s) -> bookings_unique (store s) ->
  In b (bookings (store s)) -> In t (trains (store s)) ->
  t_id t = b_train_id b -> b_user_id b = user_id user ->
  exists s',
    get_booking_details http_str (b_id b) user s
    = (s', Return (details_of b t)).
Proof.
  intros Hf Hpk Hu Hb Ht E Hown.
  destruct (get_booking_details_run http_str (b_id b) user s Hf)
    as (s' & Hrun & _).
  exists s'. rewrite Hrun. do 2 f_equal.
  unfold booking_details_query.
  rewrite (filter_join_trains
             (fun b' => Z.eqb (b_id b') (b_id b)
                        && Z.eqb (b_user_id b') (user_id user))).
  rewrite (booking_filter _ _ _ Hu Hb Hown).
  unfold join_trains. cbn.
  rewrite (filter_ext (fun t0 => Z.eqb (b_train_id b) (t_id t0))
                      (fun t0 => Z.eqb (t_id t0) (t_id t)))
    by (intros t0; rewrite E; apply Z.eqb_sym).
  rewrite (pk_filter _ _ Hpk Ht). reflexivity.
Qed.

Lemma get_booking_details_of_owner_witness :
  exists s',
    get_booking_details starlette_str (b_id booking1) alice server1
    = (s', Return (details_of booking1 T2)).
Proof.
  apply (get_booking_details_of_owner starlette_str alice server1 booking1 T2).
  - reflexivity.
  - exact trains_pk_server1.
  - exact bookings_unique_server1.
  - left. reflexivity.
  - right. left. reflexivity.
  - reflexivity.
  - reflexivity.
Defined.

(** X19. The booking lookup never changes the committed tables or the
    booking sequence, whatever the store raises and whether or not the
    booking is found. *)
Theorem get_booking_details_read_only http_str booking_id user s :
  store (fst (get_booking_details http_str booking_id user s)) = store s /\
  bookings_id_seq (fst (get_booking_details http_str booking_id user s))
  = bookings_id_seq s.
Proof.
  run_handler.
  destruct (faults s) as [|[m1|] [|[m2|] fs]] eqn:Hf; norm_faults Hf; auto.
  all: destruct (fetchone _); norm_faults Hf; auto.
Qed.

(** ** The admin endpoint *)

Ltac run_admin :=
  unfold post_trains, add_train, verify_admin_api_key, insert_train,
    try_except_psycopg2;
  run_handler.

(** X20. [verify_admin_api_key] lets a request through exactly when its
    [X-API-Key] header equals the configured key and that key is not
    empty; in every other case it raises the 403, and it never touches the
    store. *)
Theorem verify_admin_api_key_accepts_iff key request s :
  (verify_admin_api_key key request s = (s, Return true)
   <-> headers_get request "X-API-Key" = Some key /\ key <> "") /\
  (verify_admin_api_key key request s = (s, Return true) \/
   verify_admin_api_key key request s
   = (s, Raise (HTTPException 403 "Invalid API key"))).
Proof.
  unfold verify_admin_api_key, not_truthy, differs, raise, ret.
  destruct (headers_get request "X-API-Key") as [x|]; cbn.
  - destruct (String.eqb_spec x ""), (String.eqb_spec x key); cbn;
      (split; [split; [try discriminate | intros [[= ->] Hne]; congruence]
              | auto]).
    intros _. split; congruence.
  - split; [split; [discriminate | intros [[=] _]] | auto].
Qed.

(** X21. [POST /trains] with a missing or wrong [X-API-Key], or with an
    empty configured key (the value [ADMIN_API_KEY] has in the
    repository), answers 403 without opening a connection: the store is
    left exactly as it was. *)
Theorem post_trains_rejected http_str key request train new_id s :
  headers_get request "X-API-Key" <> Some key \/ key = "" ->
  post_trains http_str key request train new_id s
  = (s, Raise (HTTPException 403 "Invalid API key")).
Proof.
  intros Hbad.
  destruct (verify_admin_api_key_accepts_iff key request s) as [Hiff [H | H]].
  - apply Hiff in H. destruct H as [H Hne]. destruct Hbad; contradiction.
  - unfold post_trains, bind. now rewrite H.
Qed.

Lemma post_trains_rejected_witness :
  post_trains starlette_str ADMIN_API_KEY no_headers express 9 server1
  = (server1, Raise (HTTPException 403 "Invalid API key")).
Proof.
  apply (post_trains_rejected starlette_str ADMIN_API_KEY no_headers express 9
           server1).
  right. reflexivity.
Defined.

Lemma add_train_outcome http_str train new_id s s' r :
  add_train http_str train new_id s = (s', r) ->
  (exists e, r = Raise e /\ store s' = store s /\
             ((exists msg, e = connection_failed msg) \/
              (exists msg, In (Some msg) (faults s)
                           /\ (e = HTTPException 400 msg
                               \/ e = Psycopg2Error msg)))) \/
  (r = Return (train_row new_id train) /\
   store s' = with_train (train_row new_id train) (store s)).
Proof.
  run_admin.
  destruct (faults s) as [|[m1|] [|[m2|] [|[m3|] [|[m4|] fs]]]] eqn:Hf;
    norm_faults Hf.
  all: intros [= <- <-]; unfold connection_failed.
  all: first [ right; split; reflexivity
             | left; eexists; split; [reflexivity|]; split; [reflexivity|];
               first [ left; eexists; reflexivity
                     | right; eexists; split;
                       [| first [left; reflexivity | right; reflexivity]];
                       cbn; auto 6 ] ].
Qed.

Lemma add_train_run http_str train new_id s :
  faults s = [] ->
  exists s',
    add_train http_str train new_id s = (s', Return (train_row new_id train))
    /\ store s' = with_train (train_row new_id train) (store s)
    /\ faults s' = [] /\ bookings_id_seq s' = bookings_id_seq s.
Proof.
  intros Hf. run_admin. norm_faults Hf. eexists. split; [reflexivity|].
  cbn. auto.
Qed.

Lemma count_with_train t d tid :
  count_booked_seats tid (with_train t d) = count_booked_seats tid d.
Proof. reflexivity. Qed.

Lemma trains_pk_with_train t d :
  trains_pk d -> (forall t', In t' (trains d) -> t_id t' <> t_id t) ->
  trains_pk (with_train t d).
Proof.
  intros Hpk Hfresh. unfold trains_pk, with_train. cbn [trains].
  rewrite map_app. cbn [map].
  apply NoDup_app; [exact Hpk | repeat constructor; intros [] |].
  intros x Hx [<- | []]. apply in_map_iff in Hx.
  destruct Hx as (t' & E & Ht'). exact (Hfresh t' Ht' E).
Qed.

Lemma count_unreferenced d tid :
  (forall b, In b (bookings d) -> b_train_id b <> tid) ->
  count_booked_seats tid d = 0.
Proof.
  intros H. unfold count_booked_seats, bookings_of.
  rewrite filter_none; [reflexivity|].
  intros b Hb. apply Z.eqb_neq. now apply H.
Qed.

Lemma unreferenced_fresh d tid :
  bookings_reference_trains d ->
  (forall t, In t (trains d) -> t_id t <> tid) ->
  forall b, In b (bookings d) -> b_train_id b <> tid.
Proof.
  intros Href Hfresh b Hb E. destruct (Href b Hb) as (t & Ht & Hid).
  apply (Hfresh t Ht). congruence.
Qed.

Lemma fresh_id_server1 :
  forall t, In t (trains (store server1)) -> t_id t <> 9.
Proof. intros t [<- | [<- | []]]; cbn; lia. Qed.

Lemma unreferenced_server1 :
  forall b, In b (bookings (store server1)) -> b_train_id b <> 9.
Proof. intros b [<- | []]. cbn. lia. Qed.

(** X22. When the store hands [add_train] an unused id and the train has
    a non-negative number of seats, every run of [add_train] keeps the
    tables well formed: [trains.id] stays a key, no train is overbooked,
    every booking still refers to a train, and the bookings are
    untouched. *)
Theorem add_train_keeps_tables http_str train new_id s s' r :
  trains_pk (store s) -> no_overbooking (store s) ->
  bookings_reference_trains (store s) ->
  (forall t, In t (trains (store s)) -> t_id t <> new_id) ->
  0 <= m_total_seats train ->
  add_train http_str train new_id s = (s', r) ->
  trains_pk (store s') /\ no_overbooking (store s') /\
  bookings_reference_trains (store s') /\
  bookings (store s') = bookings (store s).
Proof.
  intros Hpk Hinv Href Hfresh Hseats Hrun.
  destruct (add_train_outcome _ _ _ _ _ _ Hrun)
    as [(e & _ & Hst & _) | (_ & Hst)]; rewrite Hst; [auto|].
  repeat split.
  - apply trains_pk_with_train; assumption.
  - intros t Ht. rewrite count_with_train. cbn in Ht.
    apply in_app_or in Ht. destruct Ht as [Ht | [<- | []]]; [now apply Hinv|].
    cbn [train_row t_id t_total_seats].
    rewrite (count_unreferenced _ _ (unreferenced_fresh _ _ Href Hfresh)).
    exact Hseats.
  - intros b Hb. destruct (Href b Hb) as (t & Ht & E). exists t.
    split; [|exact E]. cbn. apply in_or_app. now left.
Qed.

Lemma add_train_keeps_tables_witness :
  trains_pk (store (fst (add_train starlette_str express 9 server1))) /\
  no_overbooking (store (fst (add_train starlette_str express 9 server1))) /\
  bookings_reference_trains
    (store (fst (add_train starlette_str express 9 server1))) /\
  bookings (store (fst (add_train starlette_str express 9 server1)))
  = bookings (store server1).
Proof.
  apply (add_train_keeps_tables starlette_str express 9 server1
           (fst (add_train starlette_str express 9 server1))
           (snd (add_train starlette_str express 9 server1))).
  - exact trains_pk_server1.
  - exact no_overbooking_server1.
  - exact bookings_reference_trains_server1.
  - exact fresh_id_server1.
  - cbn. lia.
  - reflexivity.
Defined.



(** X24. A train added under an unused id shows up at once in the
    availability handler on its own route with all its seats available,
    and the rows of the trains that were there before are unchanged. *)
Theorem add_train_then_availability http_str train new_id s :
  faults s = [] -> trains_pk (store s) ->
  (forall t, In t (trains (store s)) -> t_id t <> new_id) ->
  (forall b, In b (bookings (store s)) -> b_train_id b <> new_id) ->
  exists s1 s2 rows,
    add_train http_str train new_id s
    = (s1, Return (train_row new_id train)) /\
    get_seat_availability http_str
      {| source := m_source train; destination := m_destination train |} s1
    = (s2, Return rows) /\
    In {| row_train := train_row new_id train;
          available_seats := m_total_seats train |} rows /\
    (forall t, In t (trains (store s)) ->
               In t (trains (store s1)) /\
               availability_of (store s1) t = availability_of (store s) t).
Proof.
  intros Hf Hpk Hfresh Hunref.
  destruct (add_train_run http_str train new_id s Hf)
    as (s1 & Hrun & Hst & Hf1 & _).
  assert (trains_pk (store s1)) as Hpk1
      by (rewrite Hst; apply trains_pk_with_train; assumption).
  destruct (get_seat_availability_rows http_str
              {| source := m_source train; destination := m_destination train |}
              s1 Hf1 Hpk1) as (s2 & Hav).
  exists s1, s2. eexists. split; [exact Hrun|]. split; [exact Hav|]. split.
  - replace {| row_train := train_row new_id train;
               available_seats := m_total_seats train |}
      with (availability_of (store s1) (train_row new_id train)).
    + apply in_map, filter_In. rewrite Hst. split.
      * cbn. apply in_or_app. right. now left.
      * unfold on_route. cbn. now rewrite !String.eqb_refl.
    + unfold availability_of. rewrite Hst, count_with_train.
      cbn [train_row t_id t_total_seats].
      rewrite (count_unreferenced _ _ Hunref). f_equal. lia.
  - intros t Ht. rewrite Hst. split; [cbn; apply in_or_app; now left|].
    reflexivity.
Qed.

Lemma add_train_then_availability_witness :
  exists s1 s2 rows,
    add_train starlette_str express 9 server1
    = (s1, Return (train_row 9 express)) /\
    get_seat_availability starlette_str
      {| source := m_source express; destination := m_destination express |} s1
    = (s2, Return rows) /\
    In {| row_train := train_row 9 express;
          available_seats := m_total_seats express |} rows /\
    (forall t, In t (trains (store server1)) ->
               In t (trains (store s1)) /\
               availability_of (store s1) t = availability_of (store server1) t).
Proof.
  apply (add_train_then_availability starlette_str express 9 server1).
  - reflexivity.
  - exact trains_pk_server1.
  - exact fresh_id_server1.
  - exact unreferenced_server1.
Defined.

(** X25. [add_train] stores [total_seats] as given: on a train just
    added under an unused id, [book_seat] succeeds when [total_seats] is
    positive, and is refused with "No seats available" when it is zero or
    negative. *)
Theorem add_train_then_book_seat http_str train new_id seat user s :
  faults s = [] -> trains_pk (store s) ->
  (forall t, In t (trains (store s)) -> t_id t <> new_id) ->
  (forall b, In b (bookings (store s)) -> b_train_id b <> new_id) ->
  exists s1,
    add_train http_str train new_id s
    = (s1, Return (train_row new_id train)) /\
    (0 < m_total_seats train ->
     exists s2 g,
       book_seat http_str {| train_id := new_id; seat_number := seat |} user s1
       = (s2, Return g) /\ b_train_id g = new_id) /\
    (m_total_seats train <= 0 ->
     exists s2,
       book_seat http_str {| train_id := new_id; seat_number := seat |} user s1
       = (s2, Raise (HTTPException 400
                       (str http_str
                          (HTTPException 400 "No seats available"))))).
Proof.
  intros Hf Hpk Hfresh Hunref.
  destruct (add_train_run http_str train new_id s Hf)
    as (s1 & Hrun & Hst & Hf1 & _).
  assert (trains_pk (store s1)) as Hpk1
      by (rewrite Hst; apply trains_pk_with_train; assumption).
  assert (In (train_row new_id train) (trains (store s1))) as Hin
      by (rewrite Hst; cbn; apply in_or_app; right; now left).
  assert (count_booked_seats new_id (store s1) = 0) as Hc
      by (rewrite Hst, count_with_train; now apply count_unreferenced).
  exists s1. split; [exact Hrun|]. split.
  - intros Hpos.
    destruct (book_seat_free http_str
                {| train_id := new_id; seat_number := seat |} user s1
                (train_row new_id train) Hf1 Hpk1 Hin eq_refl)
      as (s2 & Hb & _); [cbn; lia|].
    exists s2. eexists. split; [exact Hb | reflexivity].
  - intros Hneg.
    destruct (book_seat_full http_str
                {| train_id := new_id; seat_number := seat |} user s1
                (train_row new_id train) Hf1 Hpk1 Hin eq_refl)
      as (s2 & Hb & _); [cbn; lia|].
    exists s2. exact Hb.
Qed.

Lemma add_train_then_book_seat_witness :
  exists s1,
    add_train starlette_str express 9 server1
    = (s1, Return (train_row 9 express)) /\
    (0 < m_total_seats express ->
     exists s2 g,
       book_seat starlette_str {| train_id := 9; seat_number := 12 |} bob s1
       = (s2, Return g) /\ b_train_id g = 9) /\
    (m_total_seats express <= 0 ->
     exists s2,
       book_seat starlette_str {| train_id := 9; seat_number := 12 |} bob s1
       = (s2, Raise (HTTPException 400
                       (str starlette_str
                          (HTTPException 400 "No seats available"))))).
Proof.
  apply (add_train_then_book_seat starlette_str express 9 12 bob server1).
  - reflexivity.
  - exact trains_pk_server1.
  - exact fresh_id_server1.
  - exact unreferenced_server1.
Defined.

(** X26. [add_train] does not check [total_seats]: a train with a
    negative number of seats is committed like any other, and from then on
    the tables break the rule that bookings never exceed seats. *)
Theorem add_train_negative_seats http_str train new_id s :
  faults s = [] -> m_total_seats train < 0 ->
  exists s1,
    add_train http_str train new_id s
    = (s1, Return (train_row new_id train)) /\
    ~ no_overbooking (store s1).
Proof.
  intros Hf Hneg.
  destruct (add_train_run http_str train new_id s Hf)
    as (s1 & Hrun & Hst & _).
  exists s1. split; [exact Hrun|]. intros Hinv.
  specialize (Hinv (train_row new_id train)). rewrite Hst in Hinv.
  cbn [with_train trains train_row t_id t_total_seats] in Hinv.
  assert (0 <= count_booked_seats new_id
                 (with_train (train_row new_id train) (store s))) as Hc
    by (unfold count_booked_seats; lia).
  assert (In (train_row new_id train)
             (trains (store s) ++ [train_row new_id train])) as Hin
    by (apply in_or_app; right; now left).
  unfold train_row in *. specialize (Hinv Hin). lia.
Qed.

Lemma add_train_negative_seats_witness :
  exists s1,
    add_train starlette_str broken 9 server1
    = (s1, Return (train_row 9 broken)) /\
    ~ no_overbooking (store s1).
Proof.
  apply (add_train_negative_seats starlette_str broken 9 server1).
  - reflexivity.
  - cbn. lia.
Defined.

(** ** Accounts *)

Ltac run_account :=
  unfold register_user, login_user, acc_get_db_connection, create_token,
    hash_password, insert_user, acc_execute_select, acc_commit, acc_rollback,
    acc_close, on_server, acc_try_except_psycopg2, acc_try_finally,
    acc_bind, acc_ret, acc_raise;
  run_handler.

Lemma login_user_run http_str hash jwt user a :
  faults (server a) = [] ->
  exists a',
    login_user http_str hash jwt user a
    = (a', match fetchone (select_user (l_username user)
                             (hash (l_password user)) (users a)) with
           | None => Raise (HTTPException 401 "Invalid credentials")
           | Some row =>
               Return {| r_token :=
                           jwt {| user_id := ud_id row;
                                  username := ud_username row;
                                  is_admin := ud_is_admin row |}
                               (utcnow a + 86400);
                         r_user := row |}
           end)
    /\ users a' = users a /\ faults (server a') = []
    /\ utcnow a' = utcnow a.
Proof.
  intros Hf. run_account. norm_faults Hf.
  destruct (fetchone _); norm_faults Hf;
    (eexists; split; [reflexivity|]); cbn; auto.
Qed.


Lemma select_user_none username password us :
  (forall u, In u us -> u_username u = username -> u_password u <> password) ->
  select_user username password us = [].
Proof.
  intros H. unfold select_user. rewrite filter_none; [reflexivity|].
  intros u Hu. destruct (String.eqb_spec (u_username u) username) as [E|];
    [|reflexivity].
  cbn. apply String.eqb_neq. now apply H.
Qed.

Lemma in_select_user username password us row :
  In row (select_user username password us) ->
  exists u, In u us /\ u_username u = username /\ u_password u = password /\
            row = {| ud_id := u_id u; ud_username := u_username u;
                     ud_is_admin := u_is_admin u |}.
Proof.
  unfold select_user. intros H. apply in_map_iff in H.
  destruct H as (u & <- & Hu). apply filter_In in Hu. destruct Hu as [Hu Hw].
  apply andb_true_iff in Hw. rewrite !String.eqb_eq in Hw.
  exists u. tauto.
Qed.

(** X27. [login_user] answers an unknown username and a wrong password
    for an existing username with the very same
    [HTTPException(401, "Invalid credentials")]: the caller cannot tell
    which usernames exist. *)
Theorem login_user_hides_usernames http_str hash jwt a1 a2 u1 u2 :
  faults (server a1) = [] -> faults (server a2) = [] ->
  (forall u, In u (users a1) -> u_username u <> l_username u1) ->
  (exists u, In u (users a2) /\ u_username u = l_username u2) ->
  (forall u, In u (users a2) -> u_username u = l_username u2 ->
             u_password u <> hash (l_password u2)) ->
  snd (login_user http_str hash jwt u1 a1)
  = Raise (HTTPException 401 "Invalid credentials") /\
  snd (login_user http_str hash jwt u2 a2)
  = Raise (HTTPException 401 "Invalid credentials") /\
  snd (login_user http_str hash jwt u2 a2)
  = snd (login_user http_str hash jwt u1 a1).
Proof.
  intros Hf1 Hf2 Hunknown _ Hwrong.
  destruct (login_user_run http_str hash jwt u1 a1 Hf1) as (a1' & R1 & _).
  destruct (login_user_run http_str hash jwt u2 a2 Hf2) as (a2' & R2 & _).
  rewrite select_user_none in R1
    by (intros u Hu E; exfalso; exact (Hunknown u Hu E)).
  rewrite (select_user_none _ _ _ Hwrong) in R2.
  rewrite R1, R2. cbn. auto.
Qed.

Lemma login_user_hides_usernames_witness :
  snd (login_user starlette_str toy_hash toy_jwt
         {| l_username := "mallory"; l_password := "wonderland" |} accounts0)
  = Raise (HTTPException 401 "Invalid credentials") /\
  snd (login_user starlette_str toy_hash toy_jwt
         {| l_username := "alice"; l_password := "guess" |} accounts0)
  = Raise (HTTPException 401 "Invalid credentials") /\
  snd (login_user starlette_str toy_hash toy_jwt
         {| l_username := "alice"; l_password := "guess" |} accounts0)
  = snd (login_user starlette_str toy_hash toy_jwt
           {| l_username := "mallory"; l_password := "wonderland" |} accounts0).
Proof.
  apply (login_user_hides_usernames starlette_str toy_hash toy_jwt
           accounts0 accounts0).
  - reflexivity.
  - reflexivity.
  - intros u [<- | []]. cbn. discriminate.
  - eexists. split; [left; reflexivity | reflexivity].
  - intros u [<- | []] _. cbn. discriminate.
Defined.

(** X28. Whatever the store does, a login that returns was matched
    against a committed user row with the given username whose stored
    password is the hash of the given password; the returned user data and
    the claims of the token are taken from that row, and the token expires
    one day after the clock's reading. *)
Theorem login_user_returns_account http_str hash jwt user a a' resp :
  login_user http_str hash jwt user a = (a', Return resp) ->
  exists u,
    In u (users a) /\
    u_username u = l_username user /\
    u_password u = hash (l_password user) /\
    r_user resp = {| ud_id := u_id u; ud_username := u_username u;
                     ud_is_admin := u_is_admin u |} /\
    r_token resp = jwt {| user_id := u_id u; username := u_username u;
                          is_admin := u_is_admin u |} (utcnow a + 86400).
Proof.
  run_account.
  destruct (faults (server a)) as [|[m1|] [|[m2|] fs]] eqn:Hf; norm_faults Hf;
    try discriminate.
  all: destruct (fetchone _) as [row|] eqn:Hrow; norm_faults Hf;
    try discriminate.
  all: intros [= _ <-]; apply fetchone_In, in_select_user in Hrow.
  all: destruct Hrow as (u & Hu & Hn & Hp & ->); exists u; cbn; auto.
Qed.

Lemma login_user_returns_account_witness :
  exists u,
    In u (users accounts0) /\
    u_username u = "alice" /\
    u_password u = toy_hash "wonderland" /\
    r_user (login_response_alice)
    = {| ud_id := u_id u; ud_username := u_username u;
         ud_is_admin := u_is_admin u |} /\
    r_token (login_response_alice)
    = toy_jwt {| user_id := u_id u; username := u_username u;
                 is_admin := u_is_admin u |} (utcnow accounts0 + 86400).
Proof.
  apply (login_user_returns_account starlette_str toy_hash toy_jwt
           {| l_username := "alice"; l_password := "wonderland" |} accounts0
           (fst (login_user starlette_str toy_hash toy_jwt
                   {| l_username := "alice"; l_password := "wonderland" |}
                   accounts0))).
  vm_compute. reflexivity.
Defined.





